(** * shh: a multi-user secret store -- model of main.go

    The commands of main.go ([get], [set], [del], [allow], [deny], [edit],
    [rotate] and the handler of [serve]) are embedded as functions of an
    explicit world (files, random source, standard output, log of the
    cryptographic calls) in a monad with two abnormal outcomes: a returned Go
    [error] and a run-time panic.  The Go standard library (crypto/rsa,
    crypto/aes, crypto/cipher, crypto/x509, crypto/sha1, encoding/base64,
    encoding/hex) is a record of operations whose contracts are stated as
    propositions and assumed only where a theorem needs them. *)

From Stdlib Require Import Strings.Ascii Strings.Byte.
From stdpp Require Import base option list strings gmap fin_maps pretty sorting.

Open Scope string_scope.
Open Scope list_scope.

(** ** Outcomes of a Go function that returns an [error] and may panic *)

Inductive outcome (A : Type) : Type :=
| Ret (a : A)
| Err (e : string)
| Panic (p : string).
Arguments Ret {A} a.
Arguments Err {A} e.
Arguments Panic {A} p.

Definition is_Ret {A} (o : outcome A) : bool :=
  match o with Ret _ => true | _ => false end.


Definition is_Panic {A} (o : outcome A) : bool :=
  match o with Panic _ => true | _ => false end.

Definition outcome_option {A} (o : outcome A) : option A :=
  match o with Ret a => Some a | _ => None end.

(** errors.Wrap(err, msg) *)
Definition errors_Wrap {A} (msg : string) (o : outcome A) : outcome A :=
  match o with
  | Err e => Err (msg +:+ ": " +:+ e)
  | _ => o
  end.

Definition outcome_bind {A B} (o : outcome A) (k : A -> outcome B) : outcome B :=
  match o with
  | Ret a => k a
  | Err e => Err e
  | Panic p => Panic p
  end.

(** ** Data model (the types main.go uses) *)

(** type username string *)
Abbreviation username := string.

(** type secret struct: both fields are Go strings. *)
Record secret : Type := Secret { AESKey : string; Encrypted : string }.

(** pem.Block, of which main.go reads [Bytes]. *)
Record Block : Type := MkBlock { Bytes : list byte }.

(** type shh struct: [Keys] is a map of *pem.Block, [Secrets] a map of maps. *)
Record shh : Type := Shh {
  Keys : gmap username Block;
  Secrets : gmap username (gmap string secret)
}.

(** shh.Secrets[username][name], with its comma-ok *)
Definition entry (s : shh) (u : username) (name : string) : option secret :=
  match Secrets s !! u with
  | Some m => m !! name
  | None => None
  end.

(** The fields of [user] that the modelled commands read. *)
Record user : Type := User { Username : username; Port : Z }.

Global Instance byte_eq_decision : EqDecision byte := Byte.byte_eq_dec.

(** []byte(s) and string(b) *)
Definition bytes_of (s : string) : list byte := String.list_byte_of_string s.
Definition string_of (b : list byte) : string := String.string_of_list_byte b.

(** aes.BlockSize *)
Definition BlockSize : nat := 16.

(** args[i]: indexing past the end of a slice panics. *)
Definition index_arg (args : list string) (i : nat) : outcome string :=
  match args !! i with
  | Some a => Ret a
  | None => Panic "index out of range"
  end.

(** b[:n]: panics when [n] exceeds what the slice holds. *)
Definition slice_to (b : list byte) (n : nat) : outcome (list byte) :=
  if decide (n ≤ length b)%nat then Ret (take n b)
  else Panic "slice bounds out of range".

(** b[n:]: panics when [n] exceeds the length. *)
Definition slice_from (b : list byte) (n : nat) : outcome (list byte) :=
  if decide (n ≤ length b)%nat then Ret (drop n b)
  else Panic "slice bounds out of range".

(** ** The standard-library operations main.go calls *)

Record crypto : Type := Crypto {
  rsa_PublicKey : Type;
  rsa_PrivateKey : Type;
  (** priv.PublicKey *)
  public_of : rsa_PrivateKey -> rsa_PublicKey;
  (** rsa.GenerateKey(rand.Reader, bits): reads the random source *)
  rsa_GenerateKey : list byte -> option (rsa_PrivateKey * list byte);
  (** rsa.EncryptOAEP(sha256.New(), rand.Reader, pub, msg, nil): reads the
      random source; fails on a message too long for the key *)
  rsa_EncryptOAEP :
    rsa_PublicKey -> list byte -> list byte -> option (list byte * list byte);
  (** rsa.DecryptOAEP(sha256.New(), rand.Reader, priv, ciphertext, nil) *)
  rsa_DecryptOAEP : rsa_PrivateKey -> list byte -> option (list byte);
  (** x509.ParsePKCS1PublicKey and x509.MarshalPKCS1PublicKey *)
  x509_ParsePKCS1PublicKey : list byte -> option rsa_PublicKey;
  x509_MarshalPKCS1PublicKey : rsa_PublicKey -> list byte;
  (** cipher.NewCFBEncrypter(block, iv).XORKeyStream(dst, src) and its
      decrypting twin, for the block made by aes.NewCipher(key) *)
  cfb_encrypt : list byte -> list byte -> list byte -> list byte;
  cfb_decrypt : list byte -> list byte -> list byte -> list byte;
  (** sha1.New() ... h.Sum(nil) and hex.EncodeToString *)
  sha1_Sum : list byte -> list byte;
  hex_EncodeToString : list byte -> string;
  (** base64.StdEncoding.EncodeToString and DecodeString *)
  base64_EncodeToString : list byte -> string;
  base64_DecodeString : string -> option (list byte)
}.

(** Contracts of the library, assumed one by one where needed. *)

Definition oaep_sound (C : crypto) : Prop :=
  forall (k : rsa_PrivateKey C) (r m c r' : list byte),
    rsa_EncryptOAEP C (public_of C k) r m = Some (c, r') ->
    rsa_DecryptOAEP C k c = Some m.

Definition cfb_sound (C : crypto) : Prop :=
  forall key iv p, cfb_decrypt C key iv (cfb_encrypt C key iv p) = p.

Definition base64_sound (C : crypto) : Prop :=
  forall b, base64_DecodeString C (base64_EncodeToString C b) = Some b.

(** ** The world the commands run in *)

(** Calls of the cryptographic library, logged in call order. *)
Inductive event : Type :=
| EvGenerateKey
| EvEncryptOAEP
| EvDecryptOAEP
| EvCFBEncrypt
| EvCFBDecrypt.

Global Instance event_eq_dec : EqDecision event.
Proof. solve_decision. Defined.

(** The calls that unwrap a key or decrypt a payload, and those that wrap
    or encrypt. *)
Definition decrypting (ev : event) : Prop := ev = EvDecryptOAEP \/ ev = EvCFBDecrypt.
Definition encrypting (ev : event) : Prop := ev = EvEncryptOAEP \/ ev = EvCFBEncrypt.

(** What lies outside the process: the terminal, the password daemon, the
    editor, the names the system hands out.  None of it is code of main.go;
    each is an oracle whose answer the commands consume. *)
Record environ : Type := Environ {
  (** getConfigPath() *)
  env_configPath : outcome string;
  (** requestPassword(port, prompt) *)
  env_requestPassword : Z -> string -> outcome (list byte);
  (** requestPasswordFromServer(port, resetTimer) *)
  env_requestPasswordFromServer : Z -> bool -> outcome (list byte);
  (** requestPasswordAndConfirm(prompt) *)
  env_requestPasswordAndConfirm : string -> outcome (list byte);
  (** os.Getenv("EDITOR") *)
  env_EDITOR : string;
  (** cmd.Start() of the editor process *)
  env_editor_start : outcome unit;
  (** cmd.Wait(): the content the editor leaves in the file it was given *)
  env_editor_wait : list byte -> outcome (list byte);
  (** the name ioutil.TempFile picks *)
  env_temp_name : string;
  (** whether writing the project file fails *)
  env_persist_fails : bool
}.

Section Model.

Variable C : crypto.

(** keys: what getKeys and createKeys return. *)
Record keys : Type := Keypair {
  PublicKey : rsa_PublicKey C;
  PrivateKey : rsa_PrivateKey C;
  PublicKeyBlock : Block
}.

(** Files of the personal configuration directory, kept parsed. *)
Inductive cfile : Type :=
| CConfig (u : user)
| CPrivateKey (password : list byte) (k : rsa_PrivateKey C)
| CPublicKey (b : Block)
| CDir.

(** The project file .shh: absent, unparsable, or holding a manifest. *)
Inductive shh_state : Type :=
| NoFile
| BadFile
| Manifest (s : shh).

Record world : Type := World {
  env : environ;
  shh_file : shh_state;
  config_fs : gmap string cfile;
  temp_fs : gmap string (list byte);
  rand_Reader : list byte;
  stdout : list byte;
  trace : list event
}.

Definition set_shh_file (f : shh_state) (w : world) : world :=
  World (env w) f (config_fs w) (temp_fs w) (rand_Reader w) (stdout w) (trace w).
Definition set_config_fs (f : gmap string cfile) (w : world) : world :=
  World (env w) (shh_file w) f (temp_fs w) (rand_Reader w) (stdout w) (trace w).
Definition set_temp_fs (f : gmap string (list byte)) (w : world) : world :=
  World (env w) (shh_file w) (config_fs w) f (rand_Reader w) (stdout w) (trace w).
Definition set_rand_Reader (r : list byte) (w : world) : world :=
  World (env w) (shh_file w) (config_fs w) (temp_fs w) r (stdout w) (trace w).
Definition set_stdout (o : list byte) (w : world) : world :=
  World (env w) (shh_file w) (config_fs w) (temp_fs w) (rand_Reader w) o (trace w).
Definition log (e : event) (w : world) : world :=
  World (env w) (shh_file w) (config_fs w) (temp_fs w) (rand_Reader w) (stdout w)
        (trace w ++ [e]).

(** The manifest the project file holds. *)
Definition stored (w : world) : option shh :=
  match shh_file w with
  | Manifest s => Some s
  | _ => None
  end.

(** ** The monad of commands *)

Definition M (A : Type) : Type := world -> outcome A * world.

Definition ret {A} (a : A) : M A := fun w => (Ret a, w).

Definition bind {A B} (c : M A) (k : A -> M B) : M B :=
  fun w =>
    match c w with
    | (Ret a, w') => k a w'
    | (Err e, w') => (Err e, w')
    | (Panic p, w') => (Panic p, w')
    end.

Definition lift {A} (o : outcome A) : M A := fun w => (o, w).

Definition fail {A} (msg : string) : M A := lift (Err msg).

(** errors.Wrap around a call *)
Definition wrap {A} (msg : string) (c : M A) : M A :=
  fun w => let (o, w') := c w in (errors_Wrap msg o, w').

(** A Go [defer]: [d] runs when the function leaves, whatever the outcome. *)
Definition defer {A} (d : world -> world) (c : M A) : M A :=
  fun w => let (o, w') := c w in (o, d w').

Notation "x <- y ; z" := (bind y (fun x => z))
  (at level 20, y at level 100, z at level 200, only parsing).

(** [for ... range]: the body runs on each element, threading the state the
    loop mutates; a [return err] in the body leaves the loop. *)
Fixpoint for_range {X S} (l : list X) (body : X -> S -> M S) (s : S) : M S :=
  match l with
  | [] => ret s
  | x :: l' => s' <- body x s; for_range l' body s'
  end.

(** ** Library calls, with their effect on the world *)

(** rand.Read(b) and io.ReadFull(rand.Reader, b), for len(b) = n *)
Definition rand_Read (n : nat) : M (list byte) :=
  fun w =>
    if decide (n ≤ length (rand_Reader w))%nat
    then (Ret (take n (rand_Reader w)), set_rand_Reader (drop n (rand_Reader w)) w)
    else (Err "unexpected EOF", w).

(** aes.NewCipher(key): the block is identified with its key. *)
Definition aes_NewCipher (key : list byte) : M (list byte) :=
  if decide (length key = 16 ∨ length key = 24 ∨ length key = 32)%nat
  then ret key
  else fail "crypto/aes: invalid key size".

Definition EncryptOAEP (pub : rsa_PublicKey C) (msg : list byte) : M (list byte) :=
  fun w =>
    match rsa_EncryptOAEP C pub (rand_Reader w) msg with
    | Some (c, r) => (Ret c, log EvEncryptOAEP (set_rand_Reader r w))
    | None => (Err "crypto/rsa: message too long for RSA key size", log EvEncryptOAEP w)
    end.

Definition DecryptOAEP (priv : rsa_PrivateKey C) (ct : list byte) : M (list byte) :=
  fun w =>
    match rsa_DecryptOAEP C priv ct with
    | Some m => (Ret m, log EvDecryptOAEP w)
    | None => (Err "crypto/rsa: decryption error", log EvDecryptOAEP w)
    end.

(** cipher.NewCFBEncrypter(block, iv) followed by XORKeyStream *)
Definition CFBEncrypt (block iv src : list byte) : M (list byte) :=
  fun w => (Ret (cfb_encrypt C block iv src), log EvCFBEncrypt w).

(** cipher.NewCFBDecrypter(block, iv) followed by XORKeyStream *)
Definition CFBDecrypt (block iv src : list byte) : M (list byte) :=
  fun w => (Ret (cfb_decrypt C block iv src), log EvCFBDecrypt w).

Definition ParsePKCS1PublicKey (b : list byte) : M (rsa_PublicKey C) :=
  match x509_ParsePKCS1PublicKey C b with
  | Some k => ret k
  | None => fail "x509: failed to parse public key"
  end.

Definition DecodeString (s : string) : outcome (list byte) :=
  match base64_DecodeString C s with
  | Some b => Ret b
  | None => Err "illegal base64 data"
  end.

(** fmt.Print(string(b)) *)
Definition fmt_Print (b : list byte) : M unit :=
  fun w => (Ret tt, set_stdout (stdout w ++ b) w).

Definition filepath_Join (a b : string) : string := a +:+ "/" +:+ b.

(** ** Files *)

(** os.Mkdir(dir, 0777) *)
Definition os_Mkdir (dir : string) : M unit :=
  fun w =>
    match config_fs w !! dir with
    | Some _ => (Err "mkdir: file exists", w)
    | None => (Ret tt, set_config_fs (<[dir := CDir]> (config_fs w)) w)
    end.

(** os.RemoveAll(dir): the directory and all below it; main.go drops its
    error. *)
Definition os_RemoveAll (dir : string) (w : world) : world :=
  set_config_fs
    (filter (fun kv => ¬ (kv.1 = dir ∨ String.prefix (dir +:+ "/") kv.1 = true))
            (config_fs w)) w.

(** os.Rename(oldpath, newpath) *)
Definition os_Rename (oldpath newpath : string) : M unit :=
  fun w =>
    match config_fs w !! oldpath with
    | None => (Err "rename: no such file or directory", w)
    | Some f =>
        (Ret tt, set_config_fs (<[newpath := f]> (delete oldpath (config_fs w))) w)
    end.

(** os.Remove(name) *)
Definition os_Remove (name : string) : M unit :=
  fun w =>
    match config_fs w !! name with
    | None => (Err "remove: no such file or directory", w)
    | Some _ => (Ret tt, set_config_fs (delete name (config_fs w)) w)
    end.

(** func copyFile(dst, src string) error.  Files are kept parsed, so the
    destination simply receives the content of the source; a directory
    cannot be read. *)
Definition copyFile (dst src : string) : M unit :=
  fun w =>
    match config_fs w !! src with
    | None => (Err "open: no such file or directory", w)
    | Some CDir => (Err "copy: read: is a directory", w)
    | Some f => (Ret tt, set_config_fs (<[dst := f]> (config_fs w)) w)
    end.

(** ioutil.TempFile("", "shh"): a new file, which must not exist yet. *)
Definition ioutil_TempFile : M string :=
  fun w =>
    let name := env_temp_name (env w) in
    match temp_fs w !! name with
    | Some _ => (Err "file exists", w)
    | None => (Ret name, set_temp_fs (<[name := []]> (temp_fs w)) w)
    end.

(** io.Copy(fi, bytes.NewReader(b)) on the fresh temporary file *)
Definition io_Copy (name : string) (b : list byte) : M unit :=
  fun w => (Ret tt, set_temp_fs (<[name := b]> (temp_fs w)) w).

(** ioutil.ReadFile(name) *)
Definition ioutil_ReadFile (name : string) : M (list byte) :=
  fun w =>
    match temp_fs w !! name with
    | Some b => (Ret b, w)
    | None => (Err "open: no such file or directory", w)
    end.

(** exec.Command("bash", "-c", "$EDITOR "+name), cmd.Start() *)
Definition cmd_Start : M unit := fun w => (env_editor_start (env w), w).

(** cmd.Wait(): the editor has rewritten the file. *)
Definition cmd_Wait (name : string) : M unit :=
  fun w =>
    match env_editor_wait (env w) (default [] (temp_fs w !! name)) with
    | Ret b => (Ret tt, set_temp_fs (<[name := b]> (temp_fs w)) w)
    | Err e => (Err e, w)
    | Panic p => (Panic p, w)
    end.

(** ** Functions of the repository that main.go calls but does not define *)

(** Modelled from the spec: getConfigPath is not in main.go; it yields the
    personal configuration directory (section 6) or an error. *)
Definition getConfigPath : M string := fun w => (env_configPath (env w), w).

(** Modelled from the spec: getUser is not in main.go; it reads the user
    record (name, port) from the configuration directory. *)
Definition getUser (configPath : string) : M user :=
  fun w =>
    match config_fs w !! filepath_Join configPath "config" with
    | Some (CConfig u) => (Ret u, w)
    | _ => (Err "read config", w)
    end.

(** Modelled from the spec: getKeys is not in main.go; it is the capability
    unlock(password) -> KeyPair | WrongPassword of section 6. *)
Definition getKeys (configPath : string) (password : list byte) : M keys :=
  fun w =>
    match config_fs w !! filepath_Join configPath "id_rsa",
          config_fs w !! filepath_Join configPath "id_rsa.pub" with
    | Some (CPrivateKey pw k), Some (CPublicKey b) =>
        if decide (pw = password)
        then (Ret (Keypair (public_of C k) k b), w)
        else (Err "incorrect password", w)
    | _, _ => (Err "read keys", w)
    end.

(** Modelled from the spec: createKeys is not in main.go; it is the
    capability create(password) -> KeyPair of section 6, which leaves the
    two key files id_rsa and id_rsa.pub in the directory it is given. *)
Definition createKeys (dir : string) (password : list byte) : M keys :=
  fun w =>
    match rsa_GenerateKey C (rand_Reader w) with
    | None => (Err "generate key", log EvGenerateKey w)
    | Some (k, r) =>
        let b := MkBlock (x509_MarshalPKCS1PublicKey C (public_of C k)) in
        (Ret (Keypair (public_of C k) k b),
         log EvGenerateKey
           (set_rand_Reader r
              (set_config_fs
                 (<[filepath_Join dir "id_rsa.pub" := CPublicKey b]>
                    (<[filepath_Join dir "id_rsa" := CPrivateKey password k]>
                       (config_fs w))) w)))
    end.

(** Modelled from the spec: the three password requests are not in main.go;
    they talk to the terminal and to the daemon (section 4.4, step c). *)
Definition requestPassword (port : Z) (prompt : string) : M (list byte) :=
  fun w => (env_requestPassword (env w) port prompt, w).
Definition requestPasswordFromServer (port : Z) (reset : bool) : M (list byte) :=
  fun w => (env_requestPasswordFromServer (env w) port reset, w).
Definition requestPasswordAndConfirm (prompt : string) : M (list byte) :=
  fun w => (env_requestPasswordAndConfirm (env w) prompt, w).

Definition defaultPasswordPrompt : string := "password".

(** Modelled from the spec: shhFromPath is not in main.go; it is
    load(path) -> Manifest | NotFound | ParseError of section 4.2. *)
Definition shhFromPath (pth : string) : M shh :=
  fun w =>
    match shh_file w with
    | NoFile => (Err "open .shh: no such file or directory", w)
    | BadFile => (Err "decode .shh", w)
    | Manifest s => (Ret s, w)
    end.

(** Modelled from the spec: EncodeToFile is not in main.go; it is
    persist(Manifest, path) -> () | IOError of section 4.2, atomic: on
    failure the file is as it was. *)
Definition EncodeToFile (s : shh) : M unit :=
  fun w =>
    if env_persist_fails (env w) then (Err "write .shh", w)
    else (Ret tt, set_shh_file (Manifest s) w).

(** The byte-valued record read off a stored one: both fields of a stored
    [secret] are base64 text (main.go stores nothing else into
    [shh.Secrets]). *)
Definition decode_secret (sec : secret) : outcome secret :=
  outcome_bind (DecodeString (AESKey sec)) (fun k =>
  outcome_bind (DecodeString (Encrypted sec)) (fun e =>
  Ret (Secret (string_of k) (string_of e)))).

(** Some user holds an entry under this name. *)
Definition name_exists (s : shh) (key : string) : Prop :=
  map_Exists (fun _ m => is_Some (m !! key)) (Secrets s).

(** The entries of [user] a pattern selects: all of them for the wildcard
    token, else the single entry of that name if present. *)
Definition matching (s : shh) (key : string) (user : username) : gmap string secret :=
  let userSecrets := default ∅ (Secrets s !! user) in
  if decide (key = "*") then userSecrets
  else match userSecrets !! key with
       | Some sec => {[key := sec]}
       | None => ∅
       end.

(** Modelled from the spec: GetSecretsForUser is not in main.go; it is
    resolve(manifest, secret_pattern, acting_username) -> mapping from
    secret_name to Secret | NotFound of section 4.3.  A Secret has byte
    fields (section 3) while the manifest keeps them as base64 text
    (section 4.1): the mapping returned holds the decoded bytes, which is
    what [get], [allow] and [edit] hand to the cryptographic library.  A
    name that no user holds is NotFound; a name that exists but not for this
    user gives the empty mapping. *)
Definition GetSecretsForUser (s : shh) (key : string) (user : username)
  : outcome (gmap string secret) :=
  if decide (key ≠ "*" ∧ ¬ name_exists s key) then Err "secret not found"
  else
    let d := decode_secret <$> matching s key user in
    if decide (map_Forall (fun _ o => is_Ret o = true) d)
    then Ret (omap outcome_option d)
    else Err "illegal base64 data".

(** ** Pieces of main.go that several commands share *)

(** shh.Secrets[username][key] = sec: writing into the map of a user who has
    none is an assignment to an entry of a nil map. *)
Definition assign_secret (s : shh) (username : username) (key : string)
    (sec : secret) : M shh :=
  match Secrets s !! username with
  | Some m => ret (Shh (Keys s) (<[username := <[key := sec]> m]> (Secrets s)))
  | None => lift (Panic "assignment to entry in nil map")
  end.

(** if _, exist := shh.Secrets[username]; !exist {
      shh.Secrets[username] = map[string]secret{} }   (lines 246-248, 388-390) *)
Definition ensure_user (s : shh) (username : username) : shh :=
  match Secrets s !! username with
  | Some _ => s
  | None => Shh (Keys s) (<[username := ∅]> (Secrets s))
  end.

(** shh.Keys[username].Bytes: [Keys] holds pointers, and reading a field
    through the nil pointer of an absent user panics. *)
Definition key_bytes (s : shh) (username : username) : M (list byte) :=
  match Keys s !! username with
  | Some b => ret (Bytes b)
  | None => lift (Panic "invalid memory address or nil pointer dereference")
  end.

(** The password, from the daemon or from the terminal (lines 186-196,
    366-376, 546-556). *)
Definition obtain_password (nonInteractive : bool) (u : user) : M (list byte) :=
  if nonInteractive then requestPasswordFromServer (Port u) false
  else requestPassword (Port u) defaultPasswordPrompt.

(** Lines 260-297 of [set], which are lines 651-688 of [edit]: a new AES
    key and IV, the CFB encryption, the public key of [username] parsed from
    the manifest, the AES key wrapped for it, both stored as base64. *)
Definition encrypt_for (plaintext : list byte) (key : string)
    (username : username) (s : shh) : M shh :=
  aesKey <- rand_Read 32;
  aesBlock <- aes_NewCipher aesKey;
  iv <- wrap "read iv" (rand_Read BlockSize);
  stream <- CFBEncrypt aesBlock iv plaintext;
  let encrypted := (iv ++ stream)%list in
  der <- key_bytes s username;
  pubKey <- wrap "parse public key" (ParsePKCS1PublicKey der);
  encryptedAES <- wrap "reencrypt secret" (EncryptOAEP pubKey aesKey);
  let sec := Secret (base64_EncodeToString C encryptedAES)
                    (base64_EncodeToString C encrypted) in
  assign_secret s username key sec.

(** for key := range secrets { delete(userSecrets, key) } *)
Definition delete_keys (secrets userSecrets : gmap string secret)
  : gmap string secret :=
  foldr (fun kv acc => delete kv.1 acc) userSecrets (map_to_list secrets).

(** Lines 324-330 of [del], which are lines 469-475 of [deny].
    [userSecrets] is the very map stored in [shh.Secrets], so the deletions
    show in the manifest; when the user has no map it is nil, and deleting
    from a nil map does nothing. *)
Definition drop_secrets (s : shh) (username : username)
    (secrets : gmap string secret) : shh :=
  match Secrets s !! username with
  | None => s
  | Some userSecrets =>
      let userSecrets' := delete_keys secrets userSecrets in
      if decide (size userSecrets' = 0)%nat
      then Shh (Keys s) (delete username (Secrets s))
      else Shh (Keys s) (<[username := userSecrets']> (Secrets s))
  end.

(** ** get *)

(** The body of the loop of [get], lines 202-224. *)
Definition get_body (k : keys) (sec : secret) : M unit :=
  aesKey <- wrap "decrypt secret"
              (DecryptOAEP (PrivateKey k) (bytes_of (AESKey sec)));
  aesBlock <- aes_NewCipher aesKey;
  if decide (length (bytes_of (Encrypted sec)) < BlockSize)%nat
  then fail "encrypted secret too short"
  else
    let ciphertext := bytes_of (Encrypted sec) in
    iv <- lift (slice_to ciphertext BlockSize);
    ciphertext <- lift (slice_from ciphertext BlockSize);
    plaintext <- CFBDecrypt aesBlock iv ciphertext;
    fmt_Print plaintext.

Definition get (nonInteractive : bool) (args : list string) : M unit :=
  if decide (length args ≠ 1)%nat then fail "bad args: expected `get $name`"
  else
    secretName <- lift (index_arg args 0);
    configPath <- getConfigPath;
    u <- wrap "get user" (getUser configPath);
    s <- shhFromPath ".shh";
    secrets <- lift (GetSecretsForUser s secretName (Username u));
    password <- obtain_password nonInteractive u;
    k <- getKeys configPath password;
    _ <- for_range (map_to_list secrets)
           (fun kv (_ : unit) => get_body k kv.2) tt;
    ret tt.

(** ** set *)

Definition set_body (u : user) (key : string) (plaintext : string)
    (kv : username * gmap string secret) (s : shh) : M shh :=
  if decide (kv.1 ≠ Username u ∧ kv.2 !! key = None) then ret s
  else encrypt_for (bytes_of plaintext) key kv.1 s.

Definition set (args : list string) : M unit :=
  if decide (length args ≠ 2)%nat then fail "bad args: expected `set $name $val`"
  else
    configPath <- getConfigPath;
    u <- getUser configPath;
    s <- shhFromPath ".shh";
    let s := ensure_user s (Username u) in
    key <- lift (index_arg args 0);
    plaintext <- lift (index_arg args 1);
    s <- for_range (map_to_list (Secrets s)) (set_body u key plaintext) s;
    EncodeToFile s.

(** ** del *)

Definition del (args : list string) : M unit :=
  if decide (length args ≠ 1)%nat then fail "bad args: expected `del $secret`"
  else
    name <- lift (index_arg args 0);
    configPath <- getConfigPath;
    u <- getUser configPath;
    s <- shhFromPath ".shh";
    secrets <- lift (GetSecretsForUser s name (Username u));
    let s := drop_secrets s (Username u) secrets in
    wrap "encode to path" (EncodeToFile s).

(** ** allow *)

(** fmt's %q of a name without special characters *)
Definition go_quote (s : string) : string :=
  let q := String (Ascii.ascii_of_nat 34) EmptyString in q +:+ s +:+ q.

(** The body of the loop of [allow], lines 392-444. *)
Definition allow_body (k : keys) (pubKey : rsa_PublicKey C) (username : username)
    (kv : string * secret) (s : shh) : M shh :=
  let key := kv.1 in
  let sec := kv.2 in
  aesKey <- wrap "decrypt secret"
              (DecryptOAEP (PrivateKey k) (bytes_of (AESKey sec)));
  aesBlock <- aes_NewCipher aesKey;
  let ciphertext := bytes_of (Encrypted sec) in
  iv <- lift (slice_to ciphertext BlockSize);
  ciphertext <- lift (slice_from ciphertext BlockSize);
  plaintext <- CFBDecrypt aesBlock iv ciphertext;
  aesKey <- rand_Read 32;
  aesBlock <- aes_NewCipher aesKey;
  iv <- wrap "read iv" (rand_Read BlockSize);
  stream <- CFBEncrypt aesBlock iv plaintext;
  let encrypted := (iv ++ stream)%list in
  encryptedAES <- wrap "reencrypt secret" (EncryptOAEP pubKey aesKey);
  let sec := Secret (base64_EncodeToString C encryptedAES)
                    (base64_EncodeToString C encrypted) in
  assign_secret s username key sec.

Definition allow (nonInteractive : bool) (args : list string) : M unit :=
  if decide (length args ≠ 2)%nat
  then fail "bad args: expected `allow $user $secret`"
  else
    username <- lift (index_arg args 0);
    secretKey <- lift (index_arg args 1);
    configPath <- wrap "get config path" getConfigPath;
    u <- wrap "get user" (getUser configPath);
    s <- shhFromPath ".shh";
    match Keys s !! username with
    | None =>
        fail (go_quote username
              +:+ " is not a user in the project. try `shh add-user "
              +:+ username +:+ " $PUBKEY`")
    | Some block =>
        pubKey <- wrap "parse public key" (ParsePKCS1PublicKey (Bytes block));
        password <- obtain_password nonInteractive u;
        k <- wrap "get keys" (getKeys configPath password);
        secrets <- lift (GetSecretsForUser s secretKey (Username u));
        if decide (size secrets = 0)%nat
        then fail "no matching secrets which you can access"
        else
          let s := ensure_user s username in
          s <- for_range (map_to_list secrets) (allow_body k pubKey username) s;
          EncodeToFile s
    end.

(** ** deny *)

Definition deny (args : list string) : M unit :=
  if decide (2 < length args)%nat
  then fail "bad args: expected `deny $user [$secret]`"
  else
    secretKey <- (if decide (length args = 1)%nat then ret "*"
                  else lift (index_arg args 1));
    username <- lift (index_arg args 0);
    s <- shhFromPath ".shh";
    secrets <- wrap "get secrets for user"
                 (lift (GetSecretsForUser s secretKey username));
    let s := drop_secrets s username secrets in
    EncodeToFile s.

(** ** edit *)

(** The body of the loop that decrypts what the editor is given, lines
    583-607; the loop leaves the last name and plaintext in [key] and
    [plaintext]. *)
Definition edit_open (k : keys) (kv : string * secret)
    (st : string * list byte) : M (string * list byte) :=
  let key := kv.1 in
  let sec := kv.2 in
  aesKey <- wrap "decrypt secret"
              (DecryptOAEP (PrivateKey k) (bytes_of (AESKey sec)));
  aesBlock <- aes_NewCipher aesKey;
  if decide (length (bytes_of (Encrypted sec)) < BlockSize)%nat
  then fail "encrypted secret too short"
  else
    let ciphertext := bytes_of (Encrypted sec) in
    iv <- lift (slice_to ciphertext BlockSize);
    ciphertext <- lift (slice_from ciphertext BlockSize);
    plaintext <- CFBDecrypt aesBlock iv ciphertext;
    ret (key, plaintext).

(** The body of the loop that encrypts the edited text again, lines
    646-689. *)
Definition edit_body (key : string) (plaintext : list byte)
    (kv : username * gmap string secret) (s : shh) : M shh :=
  if decide (kv.2 !! key = None) then ret s
  else encrypt_for plaintext key kv.1 s.

Definition edit (nonInteractive : bool) (args : list string) : M unit :=
  if decide (length args ≠ 1)%nat then fail "bad args: expected `edit $secret`"
  else
    fun w0 =>
    (if decide (env_EDITOR (env w0) = EmptyString) then fail "must set $EDITOR"
     else
       configPath <- getConfigPath;
       u <- wrap "get user" (getUser configPath);
       password <- obtain_password nonInteractive u;
       k <- getKeys configPath password;
       s <- shhFromPath ".shh";
       pattern <- lift (index_arg args 0);
       secrets <- lift (GetSecretsForUser s pattern (Username u));
       if decide (1 < size secrets)%nat
       then fail "mulitple secrets found, cannot use *"
       else
         fi <- wrap "temp file" ioutil_TempFile;
         opened <- for_range (map_to_list secrets) (edit_open k) (EmptyString, []);
         let key := opened.1 in
         let plaintext := opened.2 in
         _ <- wrap "copy" (io_Copy fi plaintext);
         let origHash := hex_EncodeToString C (sha1_Sum C plaintext) in
         _ <- wrap "cmd" cmd_Start;
         _ <- wrap "wait" (cmd_Wait fi);
         plaintext <- wrap "read all" (ioutil_ReadFile fi);
         let newHash := hex_EncodeToString C (sha1_Sum C plaintext) in
         if decide (origHash = newHash) then ret tt
         else
           s <- for_range (map_to_list (Secrets s)) (edit_body key plaintext) s;
           EncodeToFile s) w0.

(** ** rotate *)

(** fmt.Println(s) *)
Definition fmt_Println (s : string) : M unit :=
  fmt_Print (bytes_of s ++ [x0a])%list.

Definition backupReminder (withConfig : bool) : M unit :=
  _ <- (if withConfig then fmt_Println "> generated ~/.config/shh/config"
        else ret tt);
  _ <- fmt_Println "> generated ~/.config/shh/id_rsa";
  _ <- fmt_Println "> generated ~/.config/shh/id_rsa.pub";
  _ <- fmt_Println ">";
  _ <- fmt_Println "> be sure to back up your ~/.config/shh/id_rsa and";
  _ <- fmt_Println "> remember your password, or you may lose access to your";
  fmt_Println "> secrets!".

(** The body of the loop of [rotate], lines 744-766. *)
Definition rotate_body (oldKeys newKeys : keys) (u : user)
    (kv : string * secret) (s : shh) : M shh :=
  let key := kv.1 in
  let sec := kv.2 in
  byt <- wrap "decode base64" (lift (DecodeString (AESKey sec)));
  aesKey <- wrap "decrypt secret" (DecryptOAEP (PrivateKey oldKeys) byt);
  encryptedAES <- wrap "reencrypt secret" (EncryptOAEP (PublicKey newKeys) aesKey);
  assign_secret s (Username u) key
    (Secret (base64_EncodeToString C encryptedAES) (Encrypted sec)).

(** What [rotate] does to the manifest it has loaded, lines 743-769. *)
Definition rotate_manifest (oldKeys newKeys : keys) (u : user) (s : shh) : M shh :=
  let secrets := default ∅ (Secrets s !! Username u) in
  s <- for_range (map_to_list secrets) (rotate_body oldKeys newKeys u) s;
  ret (Shh (<[Username u := PublicKeyBlock newKeys]> (Keys s)) (Secrets s)).

Definition rotate (args : list string) : M unit :=
  if decide (length args ≠ 0)%nat then fail "bad args: expected none"
  else
    oldPass <- wrap "request old password" (requestPassword (-1) "old password");
    newPass <- wrap "request new password"
                 (requestPasswordAndConfirm "new password");
    configPath <- getConfigPath;
    let tmpDir := filepath_Join configPath "tmp" in
    _ <- wrap "make tmp dir" (os_Mkdir tmpDir);
    defer (os_RemoveAll tmpDir)
      (newKeys <- wrap "create keys" (createKeys tmpDir newPass);
       u <- wrap "get user" (getUser configPath);
       oldKeys <- getKeys configPath oldPass;
       s <- shhFromPath ".shh";
       s <- rotate_manifest oldKeys newKeys u s;
       _ <- wrap "back up id_rsa"
              (copyFile (filepath_Join configPath "id_rsa.bak")
                        (filepath_Join configPath "id_rsa"));
       _ <- wrap "back up id_rsa.pub"
              (copyFile (filepath_Join configPath "id_rsa.pub.bak")
                        (filepath_Join configPath "id_rsa.pub"));
       _ <- wrap "encode .shh" (EncodeToFile s);
       _ <- wrap "replace id_rsa"
              (os_Rename (filepath_Join tmpDir "id_rsa")
                         (filepath_Join configPath "id_rsa"));
       _ <- wrap "replace id_rsa.pub"
              (os_Rename (filepath_Join tmpDir "id_rsa.pub")
                         (filepath_Join configPath "id_rsa.pub"));
       _ <- wrap "delete id_rsa.bak"
              (os_Remove (filepath_Join configPath "id_rsa.bak"));
       _ <- wrap "delete id_rsa.pub.bak"
              (os_Remove (filepath_Join configPath "id_rsa.pub.bak"));
       backupReminder false).

(** ** What a user reads out of a stored record *)

(** Lines 203-223 of [get] as a function of the private key and of the
    record the resolver returned: the plaintext printed, or the error. *)
Definition open_envelope (priv : rsa_PrivateKey C) (sec : secret)
  : outcome (list byte) :=
  match rsa_DecryptOAEP C priv (bytes_of (AESKey sec)) with
  | None => Err "decrypt secret: crypto/rsa: decryption error"
  | Some aesKey =>
      if decide (length aesKey = 16 ∨ length aesKey = 24 ∨ length aesKey = 32)%nat
      then
        if decide (length (bytes_of (Encrypted sec)) < BlockSize)%nat
        then Err "encrypted secret too short"
        else Ret (cfb_decrypt C aesKey
                    (take BlockSize (bytes_of (Encrypted sec)))
                    (drop BlockSize (bytes_of (Encrypted sec))))
      else Err "crypto/aes: invalid key size"
  end.

(** The same for a record as the manifest stores it. *)
Definition open_stored (priv : rsa_PrivateKey C) (sec : secret)
  : outcome (list byte) :=
  outcome_bind (decode_secret sec) (open_envelope priv).

(** ** Vocabulary of the statements *)

(** Only events in [P] were logged, and the project file is as it was. *)
Definition steady (P : event -> Prop) (w w' : world) : Prop :=
  shh_file w' = shh_file w /\
  exists evs, trace w' = trace w ++ evs /\ Forall P evs.

(** Only events in [P] were logged. *)
Definition logs (P : event -> Prop) (w w' : world) : Prop :=
  exists evs, trace w' = trace w ++ evs /\ Forall P evs.

(** In the environment [e], whatever its outcome, [c] relates the world it
    starts in to the one it leaves by [R], and leaves the environment. *)
Definition runs (e : environ) (R : relation world) {A} (c : M A) : Prop :=
  forall w, env w = e -> R w (c w).2 /\ env (c w).2 = e.

(** What [del] and [deny] leave of the map of [u] once the names in
    [matched] are gone: no map at all when nothing remains. *)
Definition pruned (s : shh) (u : username) (matched : gmap string secret)
  : option (gmap string secret) :=
  match Secrets s !! u with
  | None => None
  | Some m => if decide (m ∖ matched = ∅) then None else Some (m ∖ matched)
  end.

(** [sec] is an envelope made for [v] around the plaintext [p]: a 32-byte
    AES key and a 16-byte IV, the ciphertext IV || CFB(p), the AES key
    wrapped under the public key that [keys] holds for [v], both fields
    base64 text. *)
Definition envelope_of (keys : gmap username Block) (v : username)
    (p : list byte) (sec : secret) : Prop :=
  exists aesKey iv blk pub r c r',
    length aesKey = 32%nat /\ length iv = BlockSize /\
    keys !! v = Some blk /\
    x509_ParsePKCS1PublicKey C (Bytes blk) = Some pub /\
    rsa_EncryptOAEP C pub r aesKey = Some (c, r') /\
    sec = Secret (base64_EncodeToString C c)
                 (base64_EncodeToString C (iv ++ cfb_encrypt C aesKey iv p)).

(** [priv] is the private half of the key that [keys] holds for [v]. *)
Definition key_of (keys : gmap username Block) (v : username)
    (priv : rsa_PrivateKey C) : Prop :=
  exists blk, keys !! v = Some blk /\
    x509_ParsePKCS1PublicKey C (Bytes blk) = Some (public_of C priv).

(** [new] is [old] with its AES key unwrapped by [oldpriv] and wrapped again
    for [newpub]; the ciphertext field is the same text. *)
Definition rewrapped (oldpriv : rsa_PrivateKey C) (newpub : rsa_PublicKey C)
    (old new : secret) : Prop :=
  Encrypted new = Encrypted old /\
  exists byt aesKey r c r',
    base64_DecodeString C (AESKey old) = Some byt /\
    rsa_DecryptOAEP C oldpriv byt = Some aesKey /\
    rsa_EncryptOAEP C newpub r aesKey = Some (c, r') /\
    AESKey new = base64_EncodeToString C c.

(** The user of the configuration directory, as [getUser] reads it. *)
Definition acting_user (w : world) (u : user) : Prop :=
  exists configPath,
    env_configPath (env w) = Ret configPath /\
    config_fs w !! filepath_Join configPath "config" = Some (CConfig u).

End Model.

(** ** The password daemon of [serve] *)

Module Daemon.

(** const tickTime = time.Hour, in seconds *)
Definition tickTime : nat := 3600.

(** The variables the handler and the ticker goroutine share: the cached
    password and the ticker, known by the time it was created. *)
Record state : Type := State { password : string; ticker_since : nat }.

Record request : Type := Request {
  Path : string;
  Method : string;
  (** what ioutil.ReadAll(r.Body) returns *)
  Body : list byte;
  BodyErr : option string
}.

Record response : Type := Response { StatusCode : nat; Written : list byte }.

(** case <-resetTicker: ticker.Stop(); ticker = time.NewTicker(tickTime) *)
Definition on_reset (now : nat) (d : state) : state :=
  State (password d) now.

(** case <-ticker.C: password = "" *)
Definition on_tick (d : state) : state :=
  State EmptyString (ticker_since d).

(** When the ticker fires next. *)
Definition expiry (d : state) : nat := ticker_since d + tickTime.

(** The function given to mux.HandleFunc, lines 908-933, run at time [now];
    the send on [resetTicker] is received by the goroutine, which restarts
    the ticker. *)
Definition handler (now : nat) (r : request) (d : state) : state * response :=
  if decide (Path r = "/ping") then (d, Response 200 [])
  else
    let d := if decide (Path r = "/reset-timer") then on_reset now d else d in
    if decide (Method r = "GET")
    then (d, Response 200 (bytes_of (password d)))
    else
      let err := if decide (length (Body r) = 0 ∧ BodyErr r = None)%nat
                 then Some "empty body" else BodyErr r in
      match err with
      | Some e => (d, Response 400 (bytes_of e))
      | None => (State (string_of (Body r)) (ticker_since d), Response 200 [])
      end.

End Daemon.

(** ** A small instance of the library, to run the commands on *)

Module Sample.

Definition xor_bits (a b : bool * (bool * (bool * (bool * (bool * (bool * (bool * bool)))))))
  : bool * (bool * (bool * (bool * (bool * (bool * (bool * bool)))))) :=
  let '(a0, (a1, (a2, (a3, (a4, (a5, (a6, a7))))))) := a in
  let '(b0, (b1, (b2, (b3, (b4, (b5, (b6, b7))))))) := b in
  (xorb a0 b0, (xorb a1 b1, (xorb a2 b2, (xorb a3 b3,
   (xorb a4 b4, (xorb a5 b5, (xorb a6 b6, xorb a7 b7))))))).

Definition byte_xor (a b : byte) : byte :=
  Byte.of_bits (xor_bits (Byte.to_bits a) (Byte.to_bits b)).

(** A one-byte pad made of the key and the IV stands for the key stream. *)
Definition pad (key iv : list byte) : byte :=
  byte_xor (default x00 (head key)) (default x00 (head iv)).

(** Keys are single bytes and a key is its own public half; a wrapped
    message carries the key it was wrapped for and one byte of the random
    source; encoded text carries a marker in front. *)
Definition lib : crypto := {|
  rsa_PublicKey := byte;
  rsa_PrivateKey := byte;
  public_of := fun k => k;
  rsa_GenerateKey := fun r =>
    match r with
    | b :: r' => Some (b, r')
    | [] => None
    end;
  rsa_EncryptOAEP := fun pub r m =>
    match r with
    | seed :: r' =>
        if decide (length m ≤ 190)%nat then Some (pub :: seed :: m, r') else None
    | [] => None
    end;
  rsa_DecryptOAEP := fun priv c =>
    match c with
    | p :: _ :: m => if decide (p = priv) then Some m else None
    | _ => None
    end;
  x509_ParsePKCS1PublicKey := fun b =>
    match b with
    | [k] => Some k
    | _ => None
    end;
  x509_MarshalPKCS1PublicKey := fun k => [k];
  cfb_encrypt := fun key iv p => map (byte_xor (pad key iv)) p;
  cfb_decrypt := fun key iv c => map (byte_xor (pad key iv)) c;
  sha1_Sum := fun b => b;
  hex_EncodeToString := string_of;
  base64_EncodeToString := fun b => String "="%char (string_of b);
  base64_DecodeString := fun s =>
    match s with
    | String "="%char rest => Some (bytes_of rest)
    | _ => None
    end
|}.

(** A random source of [n] bytes. *)
Definition entropy (n : nat) : list byte := repeat x2a n.

Definition alice : user := User "alice" 4000.

Definition quiet : environ := {|
  env_configPath := Ret "/home/alice/.config/shh";
  env_requestPassword := fun _ _ => Ret (bytes_of "hunter2");
  env_requestPasswordFromServer := fun _ _ => Ret (bytes_of "hunter2");
  env_requestPasswordAndConfirm := fun _ => Ret (bytes_of "correct horse");
  env_EDITOR := "vi";
  env_editor_start := Ret tt;
  env_editor_wait := fun b => Ret b;
  env_temp_name := "/tmp/shh123";
  env_persist_fails := false
|}.

(** The configuration directory of alice, whose key is the byte "a". *)
Definition alice_config : gmap string (cfile lib) :=
  {[ "/home/alice/.config/shh/config" := CConfig lib alice;
     "/home/alice/.config/shh/id_rsa" := CPrivateKey lib (bytes_of "hunter2") "a"%byte;
     "/home/alice/.config/shh/id_rsa.pub" := CPublicKey lib (MkBlock ["a"%byte]) ]}.

Definition two_users : gmap username Block :=
  {[ "alice" := MkBlock ["a"%byte]; "bob" := MkBlock ["b"%byte] ]}.

Definition start (s : shh) (e : environ) : world lib :=
  World lib e (Manifest s) alice_config ∅ (entropy 400) [] [].

(** The same world with an editor that leaves [text] in the file. *)
Definition typing (text : string) : environ := {|
  env_configPath := env_configPath quiet;
  env_requestPassword := env_requestPassword quiet;
  env_requestPasswordFromServer := env_requestPasswordFromServer quiet;
  env_requestPasswordAndConfirm := env_requestPasswordAndConfirm quiet;
  env_EDITOR := env_EDITOR quiet;
  env_editor_start := env_editor_start quiet;
  env_editor_wait := fun _ => Ret (bytes_of text);
  env_temp_name := env_temp_name quiet;
  env_persist_fails := false
|}.

(** A 32-byte AES key wrapped for the key [k], as the manifest stores it. *)
Definition wrapped_for (k : byte) : string :=
  base64_EncodeToString lib (k :: x2a :: repeat x2a 32).

(** The text [p] under the IV of sixteen bytes x2a, as stored. *)
Definition sealed (p : string) : string :=
  base64_EncodeToString lib
    (repeat x2a 16 ++ cfb_encrypt lib (repeat x2a 32) (repeat x2a 16) (bytes_of p)).

(** alice holds "db", whose ciphertext field decodes to five bytes. *)
Definition short_manifest : shh :=
  Shh two_users
      {[ "alice" := {[ "db" := Secret (wrapped_for "a") (base64_EncodeToString lib (bytes_of "short")) ]} ]}.

(** bob holds "x" and a secret of the empty name; alice holds nothing. *)
Definition bob_manifest : shh :=
  Shh two_users
      {[ "bob" := {[ "x" := Secret (wrapped_for "b") (sealed "old");
                     EmptyString := Secret (wrapped_for "b") (sealed "old") ]} ]}.

(** alice and bob both hold "db"; bob also holds "api". *)
Definition shared_manifest : shh :=
  Shh two_users
      {[ "alice" := {[ "db" := Secret (wrapped_for "a") (sealed "s3cret") ]};
         "bob" := {[ "db" := Secret (wrapped_for "b") (sealed "s3cret");
                     "api" := Secret (wrapped_for "b") (sealed "token") ]} ]}.

(** What the holder of the key [k] reads under [name] of user [u] in the
    project file of [w]. *)
Definition reads (w : world lib) (k : byte) (u : username) (name : string)
  : option (outcome (list byte)) :=
  match stored lib w with
  | Some s => open_stored lib k <$> entry s u name
  | None => None
  end.

End Sample.

(** ** The other commands of main.go *)

Section MoreCommands.

Variable C : crypto.

(** pem.Decode(data), of which main.go keeps the block (nil when no PEM
    data is found). *)
Variable pem_Decode : list byte -> option Block.

Notation "x <- y ; z" := (bind C y (fun x => z))
  (at level 20, y at level 100, z at level 200, only parsing).

(** func parseArg(args []string) (string, []string): the nil tail is the
    empty list. *)
Definition parseArg (args : list string) : string * list string :=
  match args with
  | [] => (EmptyString, [])
  | [a] => (a, [])
  | a :: rest => (a, rest)
  end.

(** Modelled from the spec: the [Keys] field of the user that getUser
    returns is not visible in main.go; it is the public key block of the
    configuration directory (section 6), read with the user. *)
Definition user_PublicKeyBlock (configPath : string) : M C Block :=
  fun w =>
    match config_fs C w !! filepath_Join configPath "id_rsa.pub" with
    | Some (CPublicKey _ b) => (Ret b, w)
    | _ => (Err "read keys", w)
    end.

(** func addUser(args []string) error.  [u] is the name with, for the
    default to self, the public key block of the user. *)
Definition addUser (args : list string) : M C unit :=
  if decide (length args ≠ 0 ∧ length args ≠ 2)%nat
  then fail C "bad args: expected `add-user [$user $pubkey]`"
  else
    s <- shhFromPath C ".shh";
    u <- (if decide (length args = 0)%nat
          then
            configPath <- getConfigPath C;
            wrap C "get user"
              (u <- getUser C configPath;
               b <- user_PublicKeyBlock configPath;
               ret C (Username u, Some b))
          else
            name <- lift C (index_arg args 0);
            ret C (name, None));
    match Keys s !! u.1 with
    | Some _ => ret C tt
    | None =>
        block <- (if decide (length args = 0)%nat
                  then
                    match u.2 with
                    | Some b => ret C b
                    | None => lift C (Panic "invalid memory address or nil pointer dereference")
                    end
                  else
                    pubkey <- lift C (index_arg args 1);
                    match pem_Decode (bytes_of pubkey) with
                    | Some b => ret C b
                    | None => fail C "bad public key"
                    end);
        EncodeToFile C (Shh (<[u.1 := block]> (Keys s)) (Secrets s))
    end.

(** func rmUser(args []string) error *)
Definition rmUser (args : list string) : M C unit :=
  if decide (length args ≠ 1)%nat then fail C "bad args: expected `rm-user $user`"
  else
    s <- shhFromPath C ".shh";
    username <- lift C (index_arg args 0);
    match Keys s !! username with
    | None => fail C "user not found"
    | Some _ =>
        EncodeToFile C (Shh (delete username (Keys s)) (delete username (Secrets s)))
    end.

(** The line feed fmt writes for \n. *)
Definition nl : string := String (Ascii.ascii_of_nat 10) EmptyString.

(** fmt.Printf of an already formatted string; %d is [pretty]. *)
Definition fmt_Printf (s : string) : M C unit := fmt_Print C (bytes_of s).

(** for secretName := range secrets { fmt.Printf("> %s\n", secretName) } *)
Definition print_names (secrets : gmap string secret) : M C unit :=
  for_range C (map_to_list secrets)
    (fun kv (_ : unit) => fmt_Printf ("> " +:+ kv.1 +:+ nl)) tt.

(** func showUser(shh *shh, username username) error *)
Definition showUser (s : shh) (username : username) : M C unit :=
  match Secrets s !! username with
  | None => fail C ("unknown user: " +:+ username)
  | Some secrets =>
      _ <- fmt_Printf (pretty (size secrets) +:+ " secrets" +:+ nl);
      print_names secrets
  end.

(** Modelled from the spec: AllSecrets is not in main.go; it is
    all_secret_names(Manifest) of section 4.2, the union across all users
    of the names they hold. *)
Definition AllSecrets (s : shh) : gset string :=
  map_fold (fun _ m acc => dom m ∪ acc) ∅ (Secrets s).

(** a <= b on Go strings: the byte-wise lexicographic order. *)
Definition string_le (a b : string) : Prop := String.leb a b = true.

Global Instance string_le_dec : RelDecision string_le.
Proof. intros a b. unfold string_le. apply _. Defined.

(** sort.Strings: ascending in the order of Go strings. *)
Definition sort_Strings (l : list string) : list string :=
  merge_sort string_le l.

(** func showAll(shh *shh) error *)
Definition showAll (s : shh) : M C unit :=
  let secrets := AllSecrets s in
  _ <- fmt_Printf ("====== SUMMARY ======" +:+ nl);
  _ <- fmt_Printf (pretty (size (Keys s)) +:+ " users" +:+ nl);
  _ <- fmt_Printf (pretty (size secrets) +:+ " secrets" +:+ nl);
  _ <- fmt_Printf nl;
  _ <- fmt_Printf "======= USERS =======";
  let usernames := sort_Strings (map_to_list (Keys s)).*1 in
  _ <- for_range C usernames
         (fun uname (_ : unit) =>
            let userSecrets := default ∅ (Secrets s !! uname) in
            _ <- fmt_Printf (nl +:+ uname +:+ " (" +:+ pretty (size userSecrets)
                             +:+ " secrets)" +:+ nl);
            print_names userSecrets) tt;
  ret C tt.

(** func show(args []string) error *)
Definition show (args : list string) : M C unit :=
  if decide (1 < length args)%nat then fail C "bad args: expected `show [$user]`"
  else
    s <- shhFromPath C ".shh";
    if decide (length args = 0)%nat then showAll s
    else
      username <- lift C (index_arg args 0);
      showUser s username.

(** ** More vocabulary *)

(** A user who has a map of secrets has a public key. *)
Definition keys_cover (s : shh) : Prop :=
  forall u, is_Some (Secrets s !! u) -> is_Some (Keys s !! u).

(** The key files of the configuration directory [cp]: the private key
    [priv] under the password [pw], and a public key block. *)
Definition key_files (w : world C) (cp : string) (pw : list byte)
    (priv : rsa_PrivateKey C) : Prop :=
  config_fs C w !! filepath_Join cp "id_rsa" = Some (CPrivateKey C pw priv) /\
  exists b, config_fs C w !! filepath_Join cp "id_rsa.pub" = Some (CPublicKey C b).


(** Only events in [P] were logged; the project file, the configuration
    directory, the temporary files and the random source are as they
    were. *)
Definition reading (P : event -> Prop) (w w' : world C) : Prop :=
  steady C P w w' /\ config_fs C w' = config_fs C w /\
  temp_fs C w' = temp_fs C w /\ rand_Reader C w' = rand_Reader C w.

(** [c] writes the project file last: unless it returns nil, the file is as
    it was. *)
Definition writes_last (c : M C unit) : Prop :=
  forall w, (c w).1 = Ret tt \/ shh_file C (c w).2 = shh_file C w.

End MoreCommands.

(** ** More sample worlds *)

Module MoreSamples.
Import Sample.

(** alice holds "db" and "api"; bob holds "db". *)
Definition pair_manifest : shh :=
  Shh two_users
      {[ "alice" := {[ "db" := Secret (wrapped_for "a") (sealed "s3cret");
                       "api" := Secret (wrapped_for "a") (sealed "token") ]};
         "bob" := {[ "db" := Secret (wrapped_for "b") (sealed "s3cret") ]} ]}.

(** pem.Decode on the sample library: a block is one byte after "PEM". *)
Definition sample_pem (b : list byte) : option Block :=
  match b with
  | "P"%byte :: "E"%byte :: "M"%byte :: k :: [] => Some (MkBlock [k])
  | _ => None
  end.

End MoreSamples.

(** * Properties *)

(** ** C4: [deny] and its argument list *)

Section DenyArgs.

Variable C : crypto.

Lemma deny_too_many_args (args : list string) (w : world C) :
  (2 < length args)%nat ->
  deny C args w = (Err "bad args: expected `deny $user [$secret]`", w).
Proof.
  intros Hlen. unfold deny. destruct (decide (2 < length args)%nat); [done | lia].
Qed.

(** C4 (the code departs from the claim): called with no argument, [deny]
    passes its only check ([len(args) > 2]), takes the [else] branch of
    [len(args) == 1] and evaluates [args[1]] on the empty slice: the run
    ends in an index-out-of-range panic, before any file is read, instead of
    returning the usage error. *)
Theorem deny_without_arguments_panics (w : world C) :
  deny C [] w = (Panic "index out of range", w).
Proof. reflexivity. Qed.

End DenyArgs.

(** ** C3: the daemon and /reset-timer *)

Module DaemonFacts.
Import Daemon.

(** C3 as stated fails: a POST to /reset-timer whose body is not empty
    replaces the cached password by the body. *)
Lemma reset_timer_post_overwrites_password :
  ~ (forall (now : nat) (r : request) (d : state),
        Path r = "/reset-timer" ->
        Method r = "GET" \/ Method r = "POST" ->
        let d' := (handler now r d).1 in
        expiry d' = now + tickTime /\ password d' = password d).
Proof.
  intros H.
  specialize (H 10 (Request "/reset-timer" "POST" (bytes_of "evil") None)
                (State "hunter2" 0) eq_refl (or_intror eq_refl)).
  destruct H as [_ H]. vm_compute in H. discriminate H.
Qed.

(** C3, amended: every request to /reset-timer restarts the expiry window;
    the cached password is unchanged by a GET and by any other request whose
    body is empty or could not be read (answered 400), and a request that is
    not a GET with a body that is not empty sets the password to the body. *)
Theorem reset_timer_restarts_window (now : nat) (r : request) (d : state) :
  Path r = "/reset-timer" ->
  expiry (handler now r d).1 = now + tickTime /\
  (Method r = "GET" -> password (handler now r d).1 = password d) /\
  (Method r <> "GET" -> Body r = [] \/ BodyErr r <> None ->
     password (handler now r d).1 = password d /\
     StatusCode (handler now r d).2 = 400) /\
  (Method r <> "GET" -> Body r <> [] -> BodyErr r = None ->
     password (handler now r d).1 = string_of (Body r)).
Proof.
  intros Hpath. unfold handler. rewrite Hpath. simpl.
  destruct (decide (Method r = "GET")) as [Hm | Hm]; simpl.
  { split; [done |]. split; [done |]. split; intros Hne; by destruct Hne. }
  destruct (decide (length (Body r) = 0 ∧ BodyErr r = None)%nat) as [[Hl He] | Hn]; simpl.
  { split; [done |]. split; [done |]. split; [done |].
    intros _ Hb _. destruct (Body r); [done | discriminate Hl]. }
  destruct (BodyErr r) as [e |] eqn:He; simpl.
  { split; [done |]. split; [done |]. split; [done |]. intros _ _ Habs. discriminate Habs. }
  split; [done |]. split; [done |]. split; [| done].
  intros _ [Hb | Hb]; [| done]. exfalso. apply Hn. by rewrite Hb.
Qed.

Lemma reset_timer_restarts_window_witness :
  let r := Request "/reset-timer" "POST" [] None in
  let d := State "hunter2" 0 in
  Path r = "/reset-timer" /\
  expiry (handler 10 r d).1 = 10 + tickTime /\
  password (handler 10 r d).1 = "hunter2".
Proof.
  split; [reflexivity |].
  pose proof (reset_timer_restarts_window 10
                (Request "/reset-timer" "POST" [] None) (State "hunter2" 0) eq_refl)
    as (Hexp & _ & Hbad & _).
  split; [exact Hexp |].
  destruct (Hbad ltac:(discriminate) (or_introl eq_refl)) as [Hp _]. exact Hp.
Defined.

End DaemonFacts.

(** ** C2 and C10: runs on the sample library *)

Module SampleRuns.
Import Sample.

(** C2 (the code departs from the claim): alice holds "db" with a ciphertext
    of five bytes.  [get] and [edit] check the length (lines 215 and 598) and
    return the error; [allow] has no such check before
    [ciphertext[:aes.BlockSize]] (lines 402-404) and panics on the slice. *)
Theorem allow_short_ciphertext_panics :
  (get lib false ["db"] (start short_manifest quiet)).1
    = Err "encrypted secret too short" /\
  (edit lib false ["db"] (start short_manifest quiet)).1
    = Err "encrypted secret too short" /\
  (allow lib false ["bob"; "db"] (start short_manifest quiet)).1
    = Panic "slice bounds out of range".
Proof. repeat split; vm_compute; reflexivity. Qed.

(** C10 (the code departs from the claim): alice runs [edit x] while only
    bob holds "x".  The pattern resolves to no secret of alice, the only
    check is [len(secrets) > 1] (line 569), so the editor is started on an
    empty file; the text it leaves is then encrypted under the name left in
    [key], the empty string, for every user who holds a secret of that name,
    and the manifest is written. *)
Theorem edit_zero_matches_reaches_editor :
  GetSecretsForUser lib bob_manifest "x" "alice" = Ret ∅ /\
  (edit lib false ["x"] (start bob_manifest (typing "pwned"))).1 = Ret tt /\
  temp_fs lib (edit lib false ["x"] (start bob_manifest (typing "pwned"))).2
    !! "/tmp/shh123" = Some (bytes_of "pwned") /\
  reads (start bob_manifest (typing "pwned")) "b" "bob" EmptyString
    = Some (Ret (bytes_of "old")) /\
  reads (edit lib false ["x"] (start bob_manifest (typing "pwned"))).2
        "b" "bob" EmptyString
    = Some (Ret (bytes_of "pwned")).
Proof. repeat split; vm_compute; reflexivity. Qed.

End SampleRuns.

(** ** Reasoning about runs *)

Section Runs.

Variable C : crypto.

Implicit Types (w : world C).

Lemma bytes_of_string_of (b : list byte) : bytes_of (string_of b) = b.
Proof. apply String.list_byte_of_string_of_list_byte. Qed.

(** *** Inversion of successful runs *)

Lemma bind_Ret {A B} (c : M C A) (k : A -> M C B) w b w' :
  bind C c k w = (Ret b, w') ->
  exists a w1, c w = (Ret a, w1) /\ k a w1 = (Ret b, w').
Proof.
  unfold bind. destruct (c w) as [[a | err | p] w1]; intros H; try discriminate H.
  by exists a, w1.
Qed.

Lemma wrap_Ret {A} msg (c : M C A) w a w' :
  wrap C msg c w = (Ret a, w') -> c w = (Ret a, w').
Proof.
  unfold wrap. destruct (c w) as [[a1 | err | p] w1]; simpl; intros H;
    by inversion H.
Qed.

Lemma lift_Ret {A} (o : outcome A) w a w' :
  lift C o w = (Ret a, w') -> o = Ret a /\ w' = w.
Proof. unfold lift. intros H. by inversion H. Qed.

Lemma ret_Ret {A} (x : A) w a w' :
  ret C x w = (Ret a, w') -> a = x /\ w' = w.
Proof. unfold ret. intros H. by inversion H. Qed.

Lemma fail_Ret {A} msg w (a : A) w' : fail C msg w = (Ret a, w') -> False.
Proof. unfold fail, lift. intros H. discriminate H. Qed.

(** A loop that ends well has kept its invariant: [I done s w] speaks of
    the elements already visited. *)
Lemma for_range_Ret {X S} (I : list X -> S -> world C -> Prop)
    (body : X -> S -> M C S) (l : list X) :
  forall done s w s' w',
    I done s w ->
    (forall d x s1 w1 s2 w2,
        x ∈ l -> I d s1 w1 -> body x s1 w1 = (Ret s2, w2) -> I (d ++ [x]) s2 w2) ->
    for_range C l body s w = (Ret s', w') ->
    I (done ++ l) s' w'.
Proof.
  induction l as [| x l IH]; intros done s w s' w' HI Hstep Hrun.
  - apply ret_Ret in Hrun as [-> ->]. by rewrite app_nil_r.
  - simpl in Hrun. apply bind_Ret in Hrun as (s1 & w1 & Hx & Hrest).
    replace (done ++ x :: l) with ((done ++ [x]) ++ l) by by rewrite <- app_assoc.
    eapply IH; [| | exact Hrest].
    + eapply Hstep; [| exact HI | exact Hx]. apply list_elem_of_here.
    + intros d y s2 w2 s3 w3 Hy. apply Hstep. by apply list_elem_of_further.
Qed.

(** *** What a run may do to the world *)

Global Instance steady_preorder P : PreOrder (steady C P).
Proof.
  split.
  - intros w. split; [done |]. exists []. by rewrite app_nil_r.
  - intros w1 w2 w3 [Hf1 (e1 & Ht1 & HP1)] [Hf2 (e2 & Ht2 & HP2)].
    split; [congruence |]. exists (e1 ++ e2).
    split; [by rewrite Ht2, Ht1, app_assoc | by apply Forall_app].
Qed.

Global Instance logs_preorder P : PreOrder (logs C P).
Proof.
  split.
  - intros w. exists []. by rewrite app_nil_r.
  - intros w1 w2 w3 (e1 & Ht1 & HP1) (e2 & Ht2 & HP2).
    exists (e1 ++ e2).
    split; [by rewrite Ht2, Ht1, app_assoc | by apply Forall_app].
Qed.

Lemma runs_weaken e (R R' : relation (world C)) {A} (c : M C A) :
  (forall w w', R w w' -> R' w w') -> runs C e R c -> runs C e R' c.
Proof. intros HR Hc w Hw. destruct (Hc w Hw). split; auto. Qed.

Lemma steady_logs P w w' : steady C P w w' -> logs C P w w'.
Proof. by intros [_ H]. Qed.

Section Combinators.

Context (e : environ) (R : relation (world C)) `{!PreOrder R}.

Lemma runs_ret {A} (a : A) : runs C e R (ret C a).
Proof. intros w Hw. by split. Qed.

Lemma runs_lift {A} (o : outcome A) : runs C e R (lift C o).
Proof. intros w Hw. by split. Qed.

Lemma runs_fail {A} msg : runs C e R (fail C (A := A) msg).
Proof. apply runs_lift. Qed.

Lemma runs_bind {A B} (c : M C A) (k : A -> M C B) :
  runs C e R c -> (forall a, runs C e R (k a)) -> runs C e R (bind C c k).
Proof.
  intros Hc Hk w Hw. unfold bind. destruct (Hc w Hw) as [HR He].
  destruct (c w) as [[a | err | p] w1]; simpl in *; try done.
  destruct (Hk a w1 He) as [HR' He']. split; [| done]. by etrans.
Qed.

Lemma runs_wrap {A} msg (c : M C A) : runs C e R c -> runs C e R (wrap C msg c).
Proof.
  intros Hc w Hw. unfold wrap. destruct (Hc w Hw) as [HR He].
  by destruct (c w) as [o w1].
Qed.

Lemma runs_defer {A} (d : world C -> world C) (c : M C A) :
  runs C e R c -> (forall w, env C w = e -> R w (d w) /\ env C (d w) = e) ->
  runs C e R (defer C d c).
Proof.
  intros Hc Hd w Hw. unfold defer. destruct (Hc w Hw) as [HR He].
  destruct (c w) as [o w1]; simpl in *.
  destruct (Hd w1 He) as [HR' He']. split; [| done]. by etrans.
Qed.

Lemma runs_for_range {X S} (l : list X) (body : X -> S -> M C S) (s : S) :
  (forall x s1, runs C e R (body x s1)) -> runs C e R (for_range C l body s).
Proof.
  intros Hbody. revert s. induction l as [| x l IH]; intros s; simpl.
  - apply runs_ret.
  - apply runs_bind; [apply Hbody | intros s1; apply IH].
Qed.

End Combinators.

End Runs.

(** ** What the library calls and the file operations do to the world *)

Section Effects.

Variable C : crypto.
Variable e : environ.
Variable P : event -> Prop.

Local Ltac quiet_call :=
  intros w Hw; cbv beta zeta delta [rand_Read aes_NewCipher ParsePKCS1PublicKey
    fmt_Print os_Mkdir os_Rename os_Remove copyFile ioutil_TempFile io_Copy
    ioutil_ReadFile cmd_Start cmd_Wait getConfigPath getUser getKeys
    requestPassword requestPasswordFromServer requestPasswordAndConfirm
    shhFromPath assign_secret key_bytes ret fail lift];
  repeat case_match; simpl; unfold steady; simpl;
  (split; [split; [reflexivity | exists []; by rewrite app_nil_r] | assumption]).

Lemma runs_rand_Read n : runs C e (steady C P) (rand_Read C n).
Proof. quiet_call. Qed.
Lemma runs_aes_NewCipher k : runs C e (steady C P) (aes_NewCipher C k).
Proof. quiet_call. Qed.
Lemma runs_ParsePKCS1PublicKey b : runs C e (steady C P) (ParsePKCS1PublicKey C b).
Proof. quiet_call. Qed.
Lemma runs_fmt_Print b : runs C e (steady C P) (fmt_Print C b).
Proof. quiet_call. Qed.
Lemma runs_os_Mkdir d : runs C e (steady C P) (os_Mkdir C d).
Proof. quiet_call. Qed.
Lemma runs_os_Rename a b : runs C e (steady C P) (os_Rename C a b).
Proof. quiet_call. Qed.
Lemma runs_os_Remove a : runs C e (steady C P) (os_Remove C a).
Proof. quiet_call. Qed.
Lemma runs_copyFile a b : runs C e (steady C P) (copyFile C a b).
Proof. quiet_call. Qed.
Lemma runs_ioutil_TempFile : runs C e (steady C P) (ioutil_TempFile C).
Proof. quiet_call. Qed.
Lemma runs_io_Copy n b : runs C e (steady C P) (io_Copy C n b).
Proof. quiet_call. Qed.
Lemma runs_ioutil_ReadFile n : runs C e (steady C P) (ioutil_ReadFile C n).
Proof. quiet_call. Qed.
Lemma runs_cmd_Start : runs C e (steady C P) (cmd_Start C).
Proof. quiet_call. Qed.
Lemma runs_cmd_Wait n : runs C e (steady C P) (cmd_Wait C n).
Proof. quiet_call. Qed.
Lemma runs_getConfigPath : runs C e (steady C P) (getConfigPath C).
Proof. quiet_call. Qed.
Lemma runs_getUser p : runs C e (steady C P) (getUser C p).
Proof. quiet_call. Qed.
Lemma runs_getKeys p pw : runs C e (steady C P) (getKeys C p pw).
Proof. quiet_call. Qed.
Lemma runs_requestPassword p m : runs C e (steady C P) (requestPassword C p m).
Proof. quiet_call. Qed.
Lemma runs_requestPasswordFromServer p b :
  runs C e (steady C P) (requestPasswordFromServer C p b).
Proof. quiet_call. Qed.
Lemma runs_requestPasswordAndConfirm m :
  runs C e (steady C P) (requestPasswordAndConfirm C m).
Proof. quiet_call. Qed.
Lemma runs_shhFromPath p : runs C e (steady C P) (shhFromPath C p).
Proof. quiet_call. Qed.
Lemma runs_assign_secret s u k sec : runs C e (steady C P) (assign_secret C s u k sec).
Proof. quiet_call. Qed.
Lemma runs_key_bytes s u : runs C e (steady C P) (key_bytes C s u).
Proof. quiet_call. Qed.

Lemma runs_obtain_password ni u : runs C e (steady C P) (obtain_password C ni u).
Proof.
  unfold obtain_password.
  destruct ni; [apply runs_requestPasswordFromServer | apply runs_requestPassword].
Qed.

Local Ltac logged_call ev H :=
  intros w Hw; cbv beta zeta delta [EncryptOAEP DecryptOAEP CFBEncrypt CFBDecrypt createKeys];
  repeat case_match; simpl; unfold steady; simpl;
  (split; [| assumption]); (split; [reflexivity |]);
  exists [ev]; (split; [reflexivity | by apply Forall_singleton]).

Lemma runs_EncryptOAEP pub m :
  P EvEncryptOAEP -> runs C e (steady C P) (EncryptOAEP C pub m).
Proof. intros H. logged_call EvEncryptOAEP H. Qed.
Lemma runs_DecryptOAEP priv c :
  P EvDecryptOAEP -> runs C e (steady C P) (DecryptOAEP C priv c).
Proof. intros H. logged_call EvDecryptOAEP H. Qed.
Lemma runs_CFBEncrypt k iv p :
  P EvCFBEncrypt -> runs C e (steady C P) (CFBEncrypt C k iv p).
Proof. intros H. logged_call EvCFBEncrypt H. Qed.
Lemma runs_CFBDecrypt k iv p :
  P EvCFBDecrypt -> runs C e (steady C P) (CFBDecrypt C k iv p).
Proof. intros H. logged_call EvCFBDecrypt H. Qed.
Lemma runs_createKeys d pw :
  P EvGenerateKey -> runs C e (steady C P) (createKeys C d pw).
Proof. intros H. logged_call EvGenerateKey H. Qed.

(** Writing the project file logs nothing. *)
Lemma runs_EncodeToFile s : runs C e (logs C P) (EncodeToFile C s).
Proof.
  intros w Hw. unfold EncodeToFile. case_match; simpl; (split; [| assumption]);
    exists []; by rewrite app_nil_r.
Qed.

End Effects.

Create HintDb runs.

#[export] Hint Resolve runs_rand_Read runs_aes_NewCipher runs_ParsePKCS1PublicKey
  runs_fmt_Print runs_os_Mkdir runs_os_Rename runs_os_Remove runs_copyFile
  runs_ioutil_TempFile runs_io_Copy runs_ioutil_ReadFile runs_cmd_Start
  runs_cmd_Wait runs_getConfigPath runs_getUser runs_getKeys
  runs_requestPassword runs_requestPasswordFromServer
  runs_requestPasswordAndConfirm runs_shhFromPath runs_assign_secret
  runs_key_bytes runs_obtain_password runs_EncryptOAEP runs_DecryptOAEP
  runs_CFBEncrypt runs_CFBDecrypt runs_createKeys runs_EncodeToFile : runs.

(** One step through a command: a combinator, a branch, or a call. *)
Ltac runs_step :=
  first
    [ apply runs_ret; solve [typeclasses eauto]
    | apply runs_fail; solve [typeclasses eauto]
    | apply runs_lift; solve [typeclasses eauto]
    | apply runs_wrap
    | apply runs_bind; [solve [typeclasses eauto] | | intros ?]
    | apply runs_for_range; [solve [typeclasses eauto] | intros ? ?]
    | solve [eauto 3 with runs]
    | solve [eapply runs_weaken; [apply steady_logs | eauto 3 with runs]]
    | match goal with
      | |- runs _ _ _ (if ?b then _ else _) => destruct b
      | |- runs _ _ _ (match ?x with _ => _ end) => destruct x
      end ].

Ltac runs_auto := repeat runs_step.

(** ** The resolver and the removal of entries *)

Section Removal.

Variable C : crypto.

Lemma resolver_lookup s key u secrets name :
  GetSecretsForUser C s key u = Ret secrets ->
  match matching s key u !! name with
  | Some sec => exists dec, decode_secret C sec = Ret dec /\ secrets !! name = Some dec
  | None => secrets !! name = None
  end.
Proof.
  unfold GetSecretsForUser. case_decide; [discriminate |].
  case_decide as Hall; [| discriminate]. intros [= <-].
  rewrite lookup_omap, lookup_fmap.
  destruct (matching s key u !! name) as [sec |] eqn:Hm; simpl; [| done].
  specialize (Hall name (decode_secret C sec)). rewrite lookup_fmap, Hm in Hall.
  specialize (Hall eq_refl). destruct (decode_secret C sec) as [dec | |]; try done.
  by exists dec.
Qed.

Lemma resolver_matches s key u secrets name :
  GetSecretsForUser C s key u = Ret secrets ->
  is_Some (secrets !! name) <-> is_Some (matching s key u !! name).
Proof.
  intros H. pose proof (resolver_lookup _ _ _ _ name H) as Hl.
  destruct (matching s key u !! name) as [sec |].
  - destruct Hl as (dec & _ & ->). split; eauto.
  - rewrite Hl. split; intros [? ?]; done.
Qed.

Lemma foldr_delete_lookup (l : list (string * secret)) (m : gmap string secret) name :
  foldr (fun kv acc => delete kv.1 acc) m l !! name
  = if decide (name ∈ l.*1) then None else m !! name.
Proof.
  induction l as [| [k v] l IH]; [done |].
  rewrite fmap_cons. cbn [foldr fst].
  destruct (decide (name ∈ k :: l.*1)) as [Hin | Hout].
  - destruct (decide (k = name)) as [-> | Hne]; [by rewrite lookup_delete_eq |].
    rewrite lookup_delete_ne by done. rewrite IH.
    rewrite decide_True; [done |]. set_solver.
  - rewrite lookup_delete_ne by set_solver. rewrite IH.
    rewrite decide_False; [done |]. set_solver.
Qed.

Lemma delete_keys_lookup (secrets m : gmap string secret) name :
  delete_keys secrets m !! name
  = match secrets !! name with Some _ => None | None => m !! name end.
Proof.
  unfold delete_keys. rewrite foldr_delete_lookup.
  destruct (secrets !! name) as [sec |] eqn:Hs.
  - case_decide as H; [done |]. exfalso. apply H.
    apply list_elem_of_fmap. exists (name, sec). split; [done |].
    by apply elem_of_map_to_list.
  - case_decide as H; [| done]. exfalso.
    apply list_elem_of_fmap in H as ([k v] & -> & Hin).
    apply elem_of_map_to_list in Hin. simpl in Hs. congruence.
Qed.

Lemma delete_keys_difference (secrets matched m : gmap string secret) :
  (forall name, is_Some (secrets !! name) <-> is_Some (matched !! name)) ->
  delete_keys secrets m = m ∖ matched.
Proof.
  intros Hdom. apply map_eq. intros name.
  rewrite delete_keys_lookup, lookup_difference. specialize (Hdom name).
  destruct (secrets !! name), (matched !! name); try done.
  - destruct Hdom as [Hd _]. by destruct (Hd ltac:(eauto)).
  - destruct Hdom as [_ Hd]. by destruct (Hd ltac:(eauto)).
Qed.

(** What lines 324-330 and 469-475 do to the manifest. *)
Lemma drop_secrets_spec s u secrets matched :
  (forall name, is_Some (secrets !! name) <-> is_Some (matched !! name)) ->
  let s' := drop_secrets s u secrets in
  Keys s' = Keys s /\
  Secrets s' !! u = pruned s u matched /\
  (forall v, v <> u -> Secrets s' !! v = Secrets s !! v) /\
  (forall name, entry s' u name
                = match matched !! name with Some _ => None | None => entry s u name end).
Proof.
  intros Hdom. unfold drop_secrets, pruned, entry.
  destruct (Secrets s !! u) as [m |] eqn:Hu; simpl.
  - rewrite (delete_keys_difference _ matched) by done.
    destruct (decide (size (m ∖ matched) = 0)%nat) as [Hz | Hz]; simpl.
    + apply map_size_empty_iff in Hz. rewrite Hz.
      rewrite decide_True by done. rewrite lookup_delete_eq.
      repeat split; [| intros name].
      * intros v Hv. by rewrite lookup_delete_ne.
      * assert (Hl : (m ∖ matched) !! name = None) by by rewrite Hz.
        rewrite lookup_difference in Hl. by destruct (matched !! name).
    + rewrite decide_False by (intros Hemp; apply Hz; by rewrite Hemp).
      rewrite lookup_insert_eq. repeat split; [| intros name].
      * intros v Hv. by rewrite lookup_insert_ne.
      * rewrite lookup_difference. by destruct (matched !! name).
  - rewrite Hu. repeat split; try done. intros name. by destruct (matched !! name).
Qed.

Lemma drop_secrets_Keys s u secrets : Keys (drop_secrets s u secrets) = Keys s.
Proof.
  unfold drop_secrets. destruct (Secrets s !! u); [| done]. by case_decide.
Qed.

End Removal.

(** ** C7 and C8: [deny] and [del] *)

Section DenyFrame.

Variable C : crypto.

Lemma logs_nothing (w w' : world C) :
  logs C (fun _ => False) w w' -> trace C w' = trace C w.
Proof.
  intros (evs & Ht & HP). destruct evs as [| ev evs].
  - by rewrite app_nil_r in Ht.
  - by apply Forall_cons in HP as [[] _].
Qed.

Lemma deny_logs e args : runs C e (logs C (fun _ => False)) (deny C args).
Proof. unfold deny. runs_auto. Qed.

Lemma del_logs e args : runs C e (logs C (fun _ => False)) (del C args).
Proof. unfold del. runs_auto. Qed.

Lemma EncodeToFile_Ret s w w' :
  EncodeToFile C s w = (Ret tt, w') -> w' = set_shh_file C (Manifest s) w.
Proof. unfold EncodeToFile. case_match; intros Hr; by inversion Hr. Qed.

Lemma shhFromPath_Ret p w s w' :
  shhFromPath C p w = (Ret s, w') -> shh_file C w = Manifest s /\ w' = w.
Proof. unfold shhFromPath. case_match; intros Hr; by inversion Hr. Qed.

Lemma deny_Ret user pattern args w w' s :
  args = [user; pattern] \/ (args = [user] /\ pattern = "*") ->
  shh_file C w = Manifest s ->
  deny C args w = (Ret tt, w') ->
  exists secrets,
    GetSecretsForUser C s pattern user = Ret secrets /\
    w' = set_shh_file C (Manifest (drop_secrets s user secrets)) w.
Proof.
  intros Hshape Hfile Hrun. unfold deny in Hrun.
  case_decide as Hlen; [by apply fail_Ret in Hrun |].
  apply bind_Ret in Hrun as (secretKey & w1 & Hkey & Hrun).
  apply bind_Ret in Hrun as (username & w2 & Huser & Hrun).
  apply bind_Ret in Hrun as (s0 & w3 & Hload & Hrun).
  apply bind_Ret in Hrun as (secrets & w4 & Hres & Hrun).
  apply EncodeToFile_Ret in Hrun.
  apply wrap_Ret, lift_Ret in Hres as [Hres ->].
  apply shhFromPath_Ret in Hload as [Hload ->].
  assert (secretKey = pattern /\ username = user /\ w2 = w) as (-> & -> & ->).
  { destruct Hshape as [-> | [-> ->]]; simpl in *.
    - apply lift_Ret in Hkey as [[= ->] ->]. by apply lift_Ret in Huser as [[= ->] ->].
    - apply ret_Ret in Hkey as [-> ->]. by apply lift_Ret in Huser as [[= ->] ->]. }
  rewrite Hfile in Hload. injection Hload as <-.
  by exists secrets.
Qed.

Lemma del_Ret name w w' s u :
  shh_file C w = Manifest s -> acting_user C w u ->
  del C [name] w = (Ret tt, w') ->
  exists secrets,
    GetSecretsForUser C s name (Username u) = Ret secrets /\
    w' = set_shh_file C (Manifest (drop_secrets s (Username u) secrets)) w.
Proof.
  intros Hfile (cp & Hcp & Hcfg) Hrun. unfold del in Hrun.
  case_decide as Hlen; [done |].
  apply bind_Ret in Hrun as (name' & w1 & Hname & Hrun).
  apply lift_Ret in Hname as [[= <-] ->].
  apply bind_Ret in Hrun as (cp' & w1 & Hpath & Hrun).
  unfold getConfigPath in Hpath. rewrite Hcp in Hpath. injection Hpath as <- <-.
  apply bind_Ret in Hrun as (u' & w1 & Huser & Hrun).
  unfold getUser in Huser. rewrite Hcfg in Huser. injection Huser as <- <-.
  apply bind_Ret in Hrun as (s0 & w3 & Hload & Hrun).
  apply shhFromPath_Ret in Hload as [Hload ->].
  rewrite Hfile in Hload. injection Hload as <-.
  apply bind_Ret in Hrun as (secrets & w4 & Hres & Hrun).
  apply lift_Ret in Hres as [Hres ->].
  apply wrap_Ret, EncodeToFile_Ret in Hrun.
  by exists secrets.
Qed.

(** Whatever the outcome, the project file is as it was or holds the
    manifest it held with some entries dropped. *)
Lemma del_file args w :
  shh_file C (del C args w).2 = shh_file C w \/
  exists s u secrets,
    shh_file C w = Manifest s /\
    shh_file C (del C args w).2 = Manifest (drop_secrets s u secrets).
Proof.
  unfold del, bind, wrap, lift, fail, getConfigPath, getUser, shhFromPath, EncodeToFile.
  repeat case_match; simplify_eq; simpl; eauto 10.
Qed.

Lemma deny_file args w :
  shh_file C (deny C args w).2 = shh_file C w \/
  exists s u secrets,
    shh_file C w = Manifest s /\
    shh_file C (deny C args w).2 = Manifest (drop_secrets s u secrets).
Proof.
  unfold deny, bind, wrap, lift, fail, ret, shhFromPath, EncodeToFile.
  repeat case_match; simplify_eq; simpl; eauto 10.
Qed.

Lemma same_keys_of_file w w' :
  (shh_file C w' = shh_file C w \/
   exists s u secrets,
     shh_file C w = Manifest s /\
     shh_file C w' = Manifest (drop_secrets s u secrets)) ->
  Keys <$> stored C w' = Keys <$> stored C w.
Proof.
  unfold stored. intros [-> | (s & u & secrets & -> & ->)]; [done |].
  simpl. by rewrite drop_secrets_Keys.
Qed.

(** C7: after [deny user name] (or [deny user], which stands for the
    wildcard) has returned without error, the target user has no entry left
    under any name the pattern matched, the other entries of the target and
    every entry of every other user are as before and read as before, the
    keys mapping is as before, and no call of the cryptographic library was
    made. *)
Theorem deny_removes_only_the_capability
    (user pattern : string) (args : list string) (w w' : world C) (s : shh) :
  args = [user; pattern] \/ (args = [user] /\ pattern = "*") ->
  shh_file C w = Manifest s ->
  deny C args w = (Ret tt, w') ->
  exists s',
    shh_file C w' = Manifest s' /\
    (forall name, is_Some (matching s pattern user !! name) ->
                  entry s' user name = None) /\
    (forall name, matching s pattern user !! name = None ->
                  entry s' user name = entry s user name) /\
    (forall v, v <> user -> Secrets s' !! v = Secrets s !! v) /\
    Keys s' = Keys s /\
    (forall v name priv, v <> user ->
        open_stored C priv <$> entry s' v name
        = open_stored C priv <$> entry s v name) /\
    trace C w' = trace C w.
Proof.
  intros Hshape Hfile Hrun.
  destruct (deny_Ret _ _ _ _ _ _ Hshape Hfile Hrun) as (secrets & Hres & ->).
  pose proof (drop_secrets_spec s user secrets (matching s pattern user)
                (fun name => resolver_matches C _ _ _ _ name Hres))
    as (Hkeys & _ & Hothers & Hentry).
  exists (drop_secrets s user secrets). split; [done |].
  split; [| split; [| split; [| split; [| split]]]].
  - intros name [sec Hm]. by rewrite Hentry, Hm.
  - intros name Hm. by rewrite Hentry, Hm.
  - exact Hothers.
  - exact Hkeys.
  - intros v name priv Hv. unfold entry. by rewrite Hothers.
  - pose proof (deny_logs (env C w) args w eq_refl) as [Hlogs _].
    rewrite Hrun in Hlogs. by apply logs_nothing in Hlogs.
Qed.

(** C8: [del] and [deny] never touch the keys mapping of the project file,
    whatever their outcome; and when they return without error the affected
    user is left with the entries that were not matched, or with no map at
    all in [Secrets] when none is left. *)
Theorem removal_prunes_empty_map_and_keeps_keys :
  (forall args (w : world C),
      Keys <$> stored C (del C args w).2 = Keys <$> stored C w) /\
  (forall args (w : world C),
      Keys <$> stored C (deny C args w).2 = Keys <$> stored C w) /\
  (forall name (w w' : world C) s u,
      shh_file C w = Manifest s -> acting_user C w u ->
      del C [name] w = (Ret tt, w') ->
      exists s', shh_file C w' = Manifest s' /\ Keys s' = Keys s /\
        Secrets s' !! Username u = pruned s (Username u) (matching s name (Username u)) /\
        Secrets s' !! Username u <> Some ∅) /\
  (forall user pattern args (w w' : world C) s,
      args = [user; pattern] \/ (args = [user] /\ pattern = "*") ->
      shh_file C w = Manifest s ->
      deny C args w = (Ret tt, w') ->
      exists s', shh_file C w' = Manifest s' /\ Keys s' = Keys s /\
        Secrets s' !! user = pruned s user (matching s pattern user) /\
        Secrets s' !! user <> Some ∅).
Proof.
  assert (Hne : forall s u matched, pruned s u matched <> Some ∅).
  { intros s u matched. unfold pruned. destruct (Secrets s !! u); [| done].
    case_decide; [done |]. congruence. }
  split; [| split; [| split]].
  - intros args w. apply same_keys_of_file, del_file.
  - intros args w. apply same_keys_of_file, deny_file.
  - intros name w w' s u Hfile Hu Hrun.
    destruct (del_Ret _ _ _ _ _ Hfile Hu Hrun) as (secrets & Hres & ->).
    pose proof (drop_secrets_spec s (Username u) secrets (matching s name (Username u))
                  (fun n => resolver_matches C _ _ _ _ n Hres))
      as (Hkeys & Hpr & _).
    exists (drop_secrets s (Username u) secrets).
    split; [done |]. split; [done |]. split; [done |].
    pose proof (Hne s (Username u) (matching s name (Username u))) as Hn.
    rewrite <- Hpr in Hn. exact Hn.
  - intros user pattern args w w' s Hshape Hfile Hrun.
    destruct (deny_Ret _ _ _ _ _ _ Hshape Hfile Hrun) as (secrets & Hres & ->).
    pose proof (drop_secrets_spec s user secrets (matching s pattern user)
                  (fun n => resolver_matches C _ _ _ _ n Hres))
      as (Hkeys & Hpr & _).
    exists (drop_secrets s user secrets).
    split; [done |]. split; [done |]. split; [done |].
    pose proof (Hne s user (matching s pattern user)) as Hn.
    rewrite <- Hpr in Hn. exact Hn.
Qed.

End DenyFrame.

(** ** Loops over a map and the making of envelopes *)

Section Envelopes.

Variable C : crypto.

(** The invariant of a loop may use the place of the element in the list. *)
Lemma for_range_inv {X S} (I : list X -> S -> world C -> Prop)
    (body : X -> S -> M C S) (full : list X) :
  (forall d x rest s1 w1 s2 w2,
      full = d ++ x :: rest -> I d s1 w1 ->
      body x s1 w1 = (Ret s2, w2) -> I (d ++ [x]) s2 w2) ->
  forall l done s w s' w',
    full = done ++ l -> I done s w ->
    for_range C l body s w = (Ret s', w') -> I full s' w'.
Proof.
  intros Hstep. induction l as [| x l IH]; intros done s w s' w' Hfull HI Hrun.
  - apply ret_Ret in Hrun as [-> ->]. by rewrite Hfull, app_nil_r.
  - simpl in Hrun. apply bind_Ret in Hrun as (s1 & w1 & Hx & Hrest).
    eapply (IH (done ++ [x])); [| | exact Hrest].
    + by rewrite <- app_assoc.
    + eapply Hstep; [exact Hfull | exact HI | exact Hx].
Qed.

Lemma rand_Read_Ret n w b w' :
  rand_Read C n w = (Ret b, w') -> length b = n.
Proof.
  unfold rand_Read. case_decide; intros Hr; inversion Hr.
  rewrite length_take. lia.
Qed.

Lemma aes_NewCipher_Ret key w blk w' :
  aes_NewCipher C key w = (Ret blk, w') ->
  blk = key /\ w' = w /\ (length key = 16 \/ length key = 24 \/ length key = 32)%nat.
Proof.
  unfold aes_NewCipher, ret, fail, lift. case_decide; intros Hr; inversion Hr. by subst.
Qed.

Lemma EncryptOAEP_Ret pub m w c w' :
  EncryptOAEP C pub m w = (Ret c, w') ->
  exists r', rsa_EncryptOAEP C pub (rand_Reader C w) m = Some (c, r').
Proof.
  unfold EncryptOAEP. destruct (rsa_EncryptOAEP C pub (rand_Reader C w) m) as [[c1 r1] |];
    intros Hr; inversion Hr. by exists r1.
Qed.

Lemma DecryptOAEP_Ret priv ct w m w' :
  DecryptOAEP C priv ct w = (Ret m, w') -> rsa_DecryptOAEP C priv ct = Some m.
Proof.
  unfold DecryptOAEP. destruct (rsa_DecryptOAEP C priv ct); intros Hr; by inversion Hr.
Qed.

Lemma ParsePKCS1PublicKey_Ret b w k w' :
  ParsePKCS1PublicKey C b w = (Ret k, w') -> x509_ParsePKCS1PublicKey C b = Some k.
Proof.
  unfold ParsePKCS1PublicKey, ret, fail, lift. destruct (x509_ParsePKCS1PublicKey C b);
    intros Hr; by inversion Hr.
Qed.

Lemma key_bytes_Ret s v w der w' :
  key_bytes C s v w = (Ret der, w') ->
  exists blk, Keys s !! v = Some blk /\ der = Bytes blk.
Proof.
  unfold key_bytes, ret, lift. destruct (Keys s !! v) as [blk |]; intros Hr; inversion Hr.
  by exists blk.
Qed.

Lemma assign_secret_Ret s v key sec w s' w' :
  assign_secret C s v key sec w = (Ret s', w') ->
  exists m, Secrets s !! v = Some m /\
            s' = Shh (Keys s) (<[v := <[key := sec]> m]> (Secrets s)).
Proof.
  unfold assign_secret, ret, lift. destruct (Secrets s !! v) as [m |]; intros Hr; inversion Hr.
  by exists m.
Qed.

Lemma CFBEncrypt_Ret blk iv p w c w' :
  CFBEncrypt C blk iv p w = (Ret c, w') -> c = cfb_encrypt C blk iv p.
Proof. unfold CFBEncrypt. intros Hr. by inversion Hr. Qed.

(** Lines 260-297: what a successful pass leaves in the manifest. *)
Lemma encrypt_for_Ret p key v s w s' w' :
  encrypt_for C p key v s w = (Ret s', w') ->
  exists m sec,
    Secrets s !! v = Some m /\
    s' = Shh (Keys s) (<[v := <[key := sec]> m]> (Secrets s)) /\
    envelope_of C (Keys s) v p sec.
Proof.
  unfold encrypt_for. intros Hrun.
  apply bind_Ret in Hrun as (aesKey & w1 & Hkey & Hrun).
  apply bind_Ret in Hrun as (aesBlock & w2 & Hblk & Hrun).
  apply bind_Ret in Hrun as (iv & w3 & Hiv & Hrun).
  apply bind_Ret in Hrun as (stream & w4 & Hstream & Hrun).
  apply bind_Ret in Hrun as (der & w5 & Hder & Hrun).
  apply bind_Ret in Hrun as (pub & w6 & Hpub & Hrun).
  apply bind_Ret in Hrun as (c & w7 & Hwrap & Hrun).
  apply rand_Read_Ret in Hkey.
  apply aes_NewCipher_Ret in Hblk as (-> & _ & _).
  apply wrap_Ret, rand_Read_Ret in Hiv.
  apply CFBEncrypt_Ret in Hstream as ->.
  apply key_bytes_Ret in Hder as (blk & Hblk & ->).
  apply wrap_Ret, ParsePKCS1PublicKey_Ret in Hpub.
  apply wrap_Ret, EncryptOAEP_Ret in Hwrap as (r' & Hwrap).
  apply assign_secret_Ret in Hrun as (m & Hm & ->).
  exists m. eexists. split; [done |]. split; [done |].
  exists aesKey, iv, blk, pub, (rand_Reader C w6), c, r'. by repeat split.
Qed.

(** The holder of the private key reads the plaintext out of an envelope
    made for its public key. *)
Lemma envelope_opens keys v p sec priv :
  oaep_sound C -> cfb_sound C -> base64_sound C ->
  envelope_of C keys v p sec -> key_of C keys v priv ->
  open_stored C priv sec = Ret p.
Proof.
  intros Hoaep Hcfb Hb64 (aesKey & iv & blk & pub & r & c & r' & Hlk & Hliv & Hblk
                          & Hpub & Hwrap & ->) (blk' & Hblk' & Hpriv).
  rewrite Hblk in Hblk'. injection Hblk' as <-. rewrite Hpub in Hpriv.
  injection Hpriv as ->.
  unfold open_stored, decode_secret, DecodeString. simpl.
  rewrite !Hb64. simpl. unfold open_envelope. simpl.
  rewrite !bytes_of_string_of. rewrite (Hoaep _ _ _ _ _ Hwrap).
  rewrite decide_True by (right; right; exact Hlk).
  rewrite decide_False by (rewrite length_app, Hliv; unfold BlockSize; lia).
  rewrite take_app_length' by done. rewrite drop_app_length' by done.
  by rewrite Hcfb.
Qed.

(** *** The loop of [set] *)

Lemma in_fst_snoc {A B} (d : list (A * B)) (x : A * B) (v : A) :
  v ∈ (d ++ [x]).*1 <-> v ∈ d.*1 \/ v = x.1.
Proof.
  rewrite fmap_app, elem_of_app. simpl. rewrite list_elem_of_singleton. done.
Qed.

Lemma map_to_list_split {A} (m : gmap string A) d v a rest :
  map_to_list m = d ++ (v, a) :: rest -> m !! v = Some a /\ v ∉ d.*1.
Proof.
  intros Hl. split.
  - apply elem_of_map_to_list. rewrite Hl. apply elem_of_app. right.
    apply list_elem_of_here.
  - pose proof (NoDup_fst_map_to_list m) as Hnd. rewrite Hl in Hnd.
    rewrite fmap_app in Hnd. apply NoDup_app in Hnd as (_ & Hnd & _).
    intros Hin. apply (Hnd v Hin). simpl. apply list_elem_of_here.
Qed.

Lemma in_fst_map_to_list {A} (m : gmap string A) v a :
  m !! v = Some a -> v ∈ (map_to_list m).*1.
Proof.
  intros Hv. apply list_elem_of_fmap. exists (v, a). split; [done |].
  by apply elem_of_map_to_list.
Qed.

Lemma set_loop u name value s1 w s2 w1 :
  for_range C (map_to_list (Secrets s1)) (set_body C u name value) s1 w
  = (Ret s2, w1) ->
  Keys s2 = Keys s1 /\
  forall v,
    match Secrets s1 !! v with
    | None => Secrets s2 !! v = None
    | Some m =>
        if decide (v = Username u \/ is_Some (m !! name))
        then exists sec, Secrets s2 !! v = Some (<[name := sec]> m) /\
                         envelope_of C (Keys s1) v (bytes_of value) sec
        else Secrets s2 !! v = Some m
    end.
Proof.
  intros Hrun.
  pose (I := fun (d : list (username * gmap string secret)) (cur : shh) (_ : world C) =>
    Keys cur = Keys s1 /\
    forall v,
      match Secrets s1 !! v with
      | None => Secrets cur !! v = None
      | Some m =>
          if decide (v ∈ d.*1 /\ (v = Username u \/ is_Some (m !! name)))
          then exists sec, Secrets cur !! v = Some (<[name := sec]> m) /\
                           envelope_of C (Keys s1) v (bytes_of value) sec
          else Secrets cur !! v = Some m
      end).
  assert (Hend : I (map_to_list (Secrets s1)) s2 w1).
  { eapply (for_range_inv I _ (map_to_list (Secrets s1)));
      [| by rewrite app_nil_l | | exact Hrun].
    - intros d [v0 m0] rest cur wc cur' wc' Hfull [HK HS] Hbody.
      apply map_to_list_split in Hfull as [Hv0 Hfresh].
      pose proof (HS v0) as HS0. rewrite Hv0 in HS0.
      rewrite decide_False in HS0 by (intros [Hin _]; done).
      unfold set_body in Hbody. simpl in Hbody.
      destruct (decide (v0 <> Username u /\ m0 !! name = None)) as [Hskip | Hsel].
      + apply ret_Ret in Hbody as [-> ->]. split; [done |].
        intros v. specialize (HS v). destruct (Secrets s1 !! v) as [m |] eqn:Hv; [| done].
        destruct (decide (v = v0)) as [-> | Hne].
        * assert (m = m0) as -> by congruence.
          rewrite decide_False; [done |].
          intros [_ [Hu | [sec Hsec]]]; destruct Hskip; congruence.
        * destruct (decide (v ∈ d.*1 /\ (v = Username u \/ is_Some (m !! name))))
            as [Hd | Hd].
          -- rewrite decide_True; [done |]. destruct Hd. split; [| done].
             apply in_fst_snoc. by left.
          -- rewrite decide_False; [done |]. intros [Hin Hs]. apply Hd.
             split; [| done]. apply in_fst_snoc in Hin as [Hin | Hin]; done.
      + apply encrypt_for_Ret in Hbody as (m & sec & Hm & -> & Henv).
        assert (m = m0) as -> by congruence. split; [done |].
        intros v. cbn [Secrets Keys]. specialize (HS v). destruct (Secrets s1 !! v) as [m |] eqn:Hv.
        * destruct (decide (v = v0)) as [-> | Hne].
          -- assert (m = m0) as -> by congruence.
             rewrite decide_True.
             ++ exists sec. rewrite lookup_insert_eq. split; [done |]. by rewrite <- HK.
             ++ split; [apply in_fst_snoc; by right |].
                destruct (decide (v0 = Username u)) as [| Hnu]; [by left | right].
                destruct (m0 !! name) eqn:Hn; [by eexists |]. destruct Hsel. done.
          -- rewrite lookup_insert_ne by done.
             destruct (decide (v ∈ d.*1 /\ (v = Username u \/ is_Some (m !! name))))
               as [Hd | Hd].
             ++ rewrite decide_True; [done |]. destruct Hd. split; [| done].
                apply in_fst_snoc. by left.
             ++ rewrite decide_False; [done |]. intros [Hin Hs]. apply Hd.
                split; [| done]. apply in_fst_snoc in Hin as [Hin | Hin]; done.
        * destruct (decide (v = v0)) as [-> | Hne]; [congruence |].
          by rewrite lookup_insert_ne.
    - split; [done |]. intros v. destruct (Secrets s1 !! v); [| done].
      rewrite decide_False; [done |]. intros [Hin _]. by apply elem_of_nil in Hin. }
  destruct Hend as [HK HS]. split; [done |].
  intros v. specialize (HS v). destruct (Secrets s1 !! v) as [m |] eqn:Hv; [| done].
  destruct (decide (v = Username u \/ is_Some (m !! name))) as [Hsel | Hsel].
  - rewrite decide_True in HS; [done |]. split; [| done].
    by eapply in_fst_map_to_list.
  - rewrite decide_False in HS; [done |]. by intros [_ ?].
Qed.

Lemma ensure_user_spec s u :
  Keys (ensure_user s u) = Keys s /\
  forall v, Secrets (ensure_user s u) !! v
            = if decide (v = u) then Some (default ∅ (Secrets s !! u))
              else Secrets s !! v.
Proof.
  unfold ensure_user. destruct (Secrets s !! u) as [m |] eqn:Hu; simpl.
  - split; [done |]. intros v. case_decide; [by subst | done].
  - split; [done |]. intros v. case_decide as Hv.
    + subst. by rewrite lookup_insert_eq.
    + by rewrite lookup_insert_ne.
Qed.

Lemma getConfigPath_acting w u :
  acting_user C w u ->
  exists cp, getConfigPath C w = (Ret cp, w) /\ getUser C cp w = (Ret u, w).
Proof.
  intros (cp & Hcp & Hcfg). exists cp. unfold getConfigPath, getUser.
  by rewrite Hcp, Hcfg.
Qed.

Lemma set_Ret name value w w' s u :
  shh_file C w = Manifest s -> acting_user C w u ->
  set C [name; value] w = (Ret tt, w') ->
  exists s2 w1,
    for_range C (map_to_list (Secrets (ensure_user s (Username u))))
      (set_body C u name value) (ensure_user s (Username u)) w = (Ret s2, w1) /\
    w' = set_shh_file C (Manifest s2) w1.
Proof.
  intros Hfile Hu Hrun. destruct (getConfigPath_acting _ _ Hu) as (cp & Hcp & Hgu).
  unfold set in Hrun. case_decide as Hlen; [done |].
  apply bind_Ret in Hrun as (cp' & w1 & Hpath & Hrun).
  rewrite Hcp in Hpath. injection Hpath as <- <-.
  apply bind_Ret in Hrun as (u' & w1 & Huser & Hrun).
  rewrite Hgu in Huser. injection Huser as <- <-.
  apply bind_Ret in Hrun as (s0 & w1 & Hload & Hrun).
  apply shhFromPath_Ret in Hload as [Hload ->].
  rewrite Hfile in Hload. injection Hload as <-.
  apply bind_Ret in Hrun as (key & w1 & Hkey & Hrun).
  apply lift_Ret in Hkey as [[= <-] ->].
  apply bind_Ret in Hrun as (plaintext & w1 & Hval & Hrun).
  apply lift_Ret in Hval as [[= <-] ->].
  apply bind_Ret in Hrun as (s2 & w1 & Hloop & Hrun).
  apply EncodeToFile_Ret in Hrun. by exists s2, w1.
Qed.

Lemma set_logs e args : runs C e (logs C encrypting) (set C args).
Proof. unfold set, set_body, encrypt_for, encrypting. runs_auto. Qed.

(** C5: after [set name value] has returned without error, the acting user
    and every user who held [name] hold an envelope for [name] made in this
    run (a new AES key and IV, the key wrapped for that user) which the
    holder of that user's private key reads as [value]; every other user's
    map is as before, so nobody gains an entry; entries under other names
    are as before, the keys mapping too; and the run made only encrypting
    calls: it never unwraps or decrypts what was stored. *)
Theorem set_fans_out (name value : string) (w w' : world C) (s : shh) (u : user) :
  oaep_sound C -> cfb_sound C -> base64_sound C ->
  shh_file C w = Manifest s ->
  acting_user C w u ->
  set C [name; value] w = (Ret tt, w') ->
  exists s',
    shh_file C w' = Manifest s' /\
    Keys s' = Keys s /\
    (forall v, v = Username u \/ is_Some (entry s v name) ->
       exists sec,
         entry s' v name = Some sec /\
         envelope_of C (Keys s) v (bytes_of value) sec /\
         forall priv, key_of C (Keys s) v priv ->
                      open_stored C priv sec = Ret (bytes_of value)) /\
    (forall v, ~ (v = Username u \/ is_Some (entry s v name)) ->
       Secrets s' !! v = Secrets s !! v) /\
    (forall v n, n <> name -> entry s' v n = entry s v n) /\
    logs C encrypting w w'.
Proof.
  intros Hoaep Hcfb Hb64 Hfile Hu Hrun.
  pose proof (set_logs (env C w) [name; value] w eq_refl) as [Hlogs _].
  rewrite Hrun in Hlogs. simpl in Hlogs.
  destruct (set_Ret _ _ _ _ _ _ Hfile Hu Hrun) as (s2 & w1 & Hloop & ->).
  apply set_loop in Hloop as [HK HS].
  destruct (ensure_user_spec s (Username u)) as [HK1 HS1].
  rewrite HK1 in HK.
  exists s2. split; [done |]. split; [done |].
  split; [| split; [| split; [| done]]].
  - intros v Hsel. specialize (HS v). rewrite HS1 in HS.
    assert (Hm : exists m, (if decide (v = Username u)
                            then Some (default ∅ (Secrets s !! Username u))
                            else Secrets s !! v) = Some m /\
                           (v = Username u \/ is_Some (m !! name))).
    { case_decide as Hv; [eexists; split; [done | by left] |].
      destruct Hsel as [| Hent]; [done |]. unfold entry in Hent.
      destruct (Secrets s !! v) as [m |]; [| by destruct Hent].
      exists m. split; [done | by right]. }
    destruct Hm as (m & Hm & Hsel'). rewrite Hm in HS.
    rewrite decide_True in HS by done. destruct HS as (sec & Hsec & Henv).
    rewrite HK1 in Henv.
    exists sec. split; [| split; [done |]].
    + unfold entry. rewrite Hsec. apply lookup_insert_eq.
    + intros priv Hpriv. by eapply envelope_opens.
  - intros v Hsel. specialize (HS v). rewrite HS1 in HS.
    rewrite decide_False in HS by (intros ->; apply Hsel; by left).
    destruct (Secrets s !! v) as [m |] eqn:Hv; [| done].
    rewrite decide_False in HS; [done |].
    intros [Hv' | Hn]; apply Hsel; [by left | right].
    unfold entry. by rewrite Hv.
  - intros v n Hn. specialize (HS v). rewrite HS1 in HS. unfold entry.
    destruct (decide (v = Username u)) as [-> | Hv].
    + rewrite decide_True in HS by (by left). destruct HS as (sec & -> & _).
      rewrite lookup_insert_ne by done.
      by destruct (Secrets s !! Username u).
    + destruct (Secrets s !! v) as [m |] eqn:Hsv; [| by rewrite HS].
      case_decide; [| by rewrite HS]. destruct HS as (sec & -> & _).
      by rewrite lookup_insert_ne.
Qed.

End Envelopes.

(** ** C6: an edit that changes nothing *)

Section EditNoop.

Variable C : crypto.

Lemma runs_edit_open e k kv st : runs C e (steady C decrypting) (edit_open C k kv st).
Proof. unfold edit_open, decrypting. runs_auto. Qed.

(** C6: with an editor that leaves content of the same hash as the content
    it was given, [edit] leaves the project file as it was and makes no
    encrypting call of the library (it only unwraps and decrypts), whatever
    its arguments and the world it runs in. *)
Theorem edit_without_change_keeps_manifest (nonInteractive : bool)
    (args : list string) (w : world C) :
  (forall p p', env_editor_wait (env C w) p = Ret p' ->
                sha1_Sum C p' = sha1_Sum C p) ->
  shh_file C (edit C nonInteractive args w).2 = shh_file C w /\
  exists evs,
    trace C (edit C nonInteractive args w).2 = trace C w ++ evs /\
    Forall (fun ev => ev = EvDecryptOAEP \/ ev = EvCFBDecrypt) evs.
Proof.
  intros Hsame. change (steady C decrypting w (edit C nonInteractive args w).2).
  unfold edit. case_decide; [reflexivity |].
  case_decide; [reflexivity |].
  match goal with |- steady _ _ _ (?c w).2 =>
    enough (Hruns : runs C (env C w) (steady C decrypting) c)
      by exact (proj1 (Hruns w eq_refl))
  end.
  repeat lazymatch goal with
         | |- runs _ _ _ (bind _ (wrap _ "copy" _) _) => fail
         | |- runs _ _ _ (for_range _ _ (edit_open _ _) _) =>
             apply runs_for_range; [typeclasses eauto | intros ? ?; apply runs_edit_open]
         | |- _ => runs_step
         end.
  intros w1 Hw1. rewrite <- Hw1 in Hsame.
  unfold bind, wrap, io_Copy, cmd_Start, cmd_Wait, ioutil_ReadFile. simpl.
  assert (Hst : forall w2, shh_file C w2 = shh_file C w1 ->
                           trace C w2 = trace C w1 -> steady C decrypting w1 w2).
  { intros w2 Hf Ht. split; [done |]. exists []. by rewrite app_nil_r. }
  destruct (env_editor_start (env C w1)) as [[] | err | p]; simpl;
    [| split; [by apply Hst | done] | split; [by apply Hst | done]].
  rewrite lookup_insert_eq. simpl.
  destruct (env_editor_wait (env C w1) a7.2) as [b | err | p] eqn:Hed; simpl;
    [| split; [by apply Hst | done] | split; [by apply Hst | done]].
  rewrite lookup_insert_eq. simpl.
  rewrite decide_True by (by rewrite (Hsame _ _ Hed)).
  simpl. split; [by apply Hst | done].
Qed.

End EditNoop.

(** ** C9 and C1: [rotate] *)

Section Rotation.

Variable C : crypto.

(** *** The loop of [rotate] *)

Lemma rotate_body_Ret oldKeys newKeys u key sec s w s' w' :
  rotate_body C oldKeys newKeys u (key, sec) s w = (Ret s', w') ->
  exists m sec',
    Secrets s !! Username u = Some m /\
    s' = Shh (Keys s) (<[Username u := <[key := sec']> m]> (Secrets s)) /\
    rewrapped C (PrivateKey C oldKeys) (PublicKey C newKeys) sec sec'.
Proof.
  unfold rotate_body. simpl. intros Hrun.
  apply bind_Ret in Hrun as (byt & w1 & Hbyt & Hrun).
  apply bind_Ret in Hrun as (aesKey & w2 & Hkey & Hrun).
  apply bind_Ret in Hrun as (c & w3 & Hwrap & Hrun).
  apply wrap_Ret, lift_Ret in Hbyt as [Hbyt ->].
  unfold DecodeString in Hbyt.
  destruct (base64_DecodeString C (AESKey sec)) as [byt' |] eqn:Hdec; [| done].
  injection Hbyt as ->.
  apply wrap_Ret, DecryptOAEP_Ret in Hkey.
  apply wrap_Ret, EncryptOAEP_Ret in Hwrap as (r' & Hwrap).
  apply assign_secret_Ret in Hrun as (m & Hm & ->).
  exists m. eexists. split; [done |]. split; [done |]. split; [done |].
  by exists byt, aesKey, (rand_Reader C w2), c, r'.
Qed.

Lemma rotate_manifest_Ret oldKeys newKeys u s w s' w' :
  rotate_manifest C oldKeys newKeys u s w = (Ret s', w') ->
  Keys s' = <[Username u := PublicKeyBlock C newKeys]> (Keys s) /\
  (forall v, v <> Username u -> Secrets s' !! v = Secrets s !! v) /\
  (forall name,
      match entry s (Username u) name with
      | None => entry s' (Username u) name = None
      | Some sec =>
          exists sec', entry s' (Username u) name = Some sec' /\
            rewrapped C (PrivateKey C oldKeys) (PublicKey C newKeys) sec sec'
      end).
Proof.
  unfold rotate_manifest. intros Hrun.
  apply bind_Ret in Hrun as (s2 & w2 & Hloop & Hrun).
  apply ret_Ret in Hrun as [-> ->]. simpl.
  set (m0 := default ∅ (Secrets s !! Username u)) in *.
  assert (Hentry : forall name, entry s (Username u) name = m0 !! name).
  { intros name. unfold entry, m0. by destruct (Secrets s !! Username u). }
  pose (I := fun (d : list (string * secret)) (cur : shh) (_ : world C) =>
    Keys cur = Keys s /\
    (forall v, v <> Username u -> Secrets cur !! v = Secrets s !! v) /\
    forall name,
      match m0 !! name with
      | None => entry cur (Username u) name = None
      | Some sec =>
          if decide (name ∈ d.*1)
          then exists sec', entry cur (Username u) name = Some sec' /\
                 rewrapped C (PrivateKey C oldKeys) (PublicKey C newKeys) sec sec'
          else entry cur (Username u) name = Some sec
      end).
  assert (Hend : I (map_to_list m0) s2 w2).
  { eapply (for_range_inv C I _ (map_to_list m0));
      [| by rewrite app_nil_l | | exact Hloop].
    - intros d [key sec] rest cur wc cur' wc' Hfull (HK & HO & HE) Hbody.
      apply map_to_list_split in Hfull as [Hkey Hfresh].
      apply rotate_body_Ret in Hbody as (m & sec' & Hm & -> & Hrw).
      split; [done |]. split.
      + intros v Hv. cbn [Secrets]. rewrite lookup_insert_ne by done. by apply HO.
      + intros name. specialize (HE name). unfold entry in *. cbn [Secrets].
        rewrite lookup_insert_eq. rewrite Hm in HE.
        destruct (decide (name = key)) as [-> | Hne].
        * rewrite Hkey. rewrite decide_True by (apply in_fst_snoc; by right).
          exists sec'. by rewrite lookup_insert_eq.
        * rewrite lookup_insert_ne by done.
          destruct (m0 !! name) as [sec0 |]; [| done].
          destruct (decide (name ∈ d.*1)) as [Hd | Hd].
          -- rewrite decide_True; [done |]. apply in_fst_snoc. by left.
          -- rewrite decide_False; [done |]. intros Hin.
             apply in_fst_snoc in Hin as [Hin | Hin]; done.
    - split; [done |]. split; [done |]. intros name. rewrite <- Hentry.
      destruct (entry s (Username u) name); [| done].
      rewrite decide_False; [done |]. intros Hin. by apply elem_of_nil in Hin. }
  destruct Hend as (HK & HO & HE). split; [by rewrite HK |]. split; [done |].
  intros name. specialize (HE name). rewrite Hentry.
  destruct (m0 !! name) as [sec |] eqn:Hn; [| done].
  rewrite decide_True in HE; [done |]. by eapply in_fst_map_to_list.
Qed.

(** *** Paths below the configuration directory *)

Lemma append_assoc (a b c : string) : (a +:+ b) +:+ c = a +:+ (b +:+ c).
Proof.
  induction a as [| ch a IH]; [done |].
  change (String ch ((a +:+ b) +:+ c) = String ch (a +:+ (b +:+ c))).
  by rewrite IH.
Qed.

Lemma append_neq (cp a b : string) : a <> b -> cp +:+ a <> cp +:+ b.
Proof. intros Hne Heq. by apply String.app_inj in Heq. Qed.

Local Ltac path_neq :=
  unfold filepath_Join; rewrite ?append_assoc; simpl; apply append_neq; discriminate.

Lemma defer_Ret {A} d (c : M C A) w a w' :
  defer C d c w = (Ret a, w') -> exists w1, c w = (Ret a, w1) /\ w' = d w1.
Proof.
  unfold defer. destruct (c w) as [o w1]. intros Hr. inversion Hr. by exists w1.
Qed.

(** A steady run that ends leaves the project file as it was. *)
Lemma steady_file {A} P (c : M C A) w o w' :
  runs C (env C w) (steady C P) c -> c w = (o, w') ->
  shh_file C w' = shh_file C w.
Proof. intros Hc Hrun. destruct (Hc w eq_refl) as [[Hf _] _]. by rewrite Hrun in Hf. Qed.

Lemma runs_backupReminder e P b : runs C e (steady C P) (backupReminder C b).
Proof. unfold backupReminder, fmt_Println. runs_auto. Qed.

(** What a successful [rotate] has done, step by step. *)
Lemma rotate_Ret cp u s w w' :
  env_configPath (env C w) = Ret cp ->
  config_fs C w !! filepath_Join cp "config" = Some (CConfig C u) ->
  shh_file C w = Manifest s ->
  rotate C [] w = (Ret tt, w') ->
  exists oldPass oldk blk k r s1 wb wc,
    config_fs C w !! filepath_Join cp "id_rsa" = Some (CPrivateKey C oldPass oldk) /\
    rsa_GenerateKey C (rand_Reader C w) = Some (k, r) /\
    rotate_manifest C (Keypair C (public_of C oldk) oldk blk)
      (Keypair C (public_of C k) k
         (MkBlock (x509_MarshalPKCS1PublicKey C (public_of C k)))) u s wb
    = (Ret s1, wc) /\
    shh_file C w' = Manifest s1.
Proof.
  intros Hcp Hcfg Hfile Hrun. unfold rotate in Hrun.
  case_decide as Hlen; [done |].
  apply bind_Ret in Hrun as (oldPass & w1 & Hold & Hrun).
  apply wrap_Ret in Hold. unfold requestPassword in Hold. injection Hold as Hold <-.
  apply bind_Ret in Hrun as (newPass & w1 & Hnew & Hrun).
  apply wrap_Ret in Hnew. unfold requestPasswordAndConfirm in Hnew.
  injection Hnew as Hnew <-.
  apply bind_Ret in Hrun as (cp' & w1 & Hpath & Hrun).
  unfold getConfigPath in Hpath. rewrite Hcp in Hpath. injection Hpath as <- <-.
  apply bind_Ret in Hrun as ([] & wa & Hmk & Hrun).
  apply wrap_Ret in Hmk. unfold os_Mkdir in Hmk.
  destruct (config_fs C w !! filepath_Join cp "tmp") eqn:Htmp; [done |].
  injection Hmk as <-.
  apply defer_Ret in Hrun as (wz & Hrun & ->).
  apply bind_Ret in Hrun as (newKeys & wb & Hcreate & Hrun).
  apply wrap_Ret in Hcreate. unfold createKeys in Hcreate. simpl in Hcreate.
  destruct (rsa_GenerateKey C (rand_Reader C w)) as [[k r] |] eqn:Hgen; [| done].
  injection Hcreate as <- <-.
  apply bind_Ret in Hrun as (u' & w1 & Huser & Hrun).
  apply wrap_Ret in Huser. unfold getUser in Huser. simpl in Huser.
  rewrite !lookup_insert_ne in Huser by path_neq.
  rewrite Hcfg in Huser. injection Huser as <- <-.
  apply bind_Ret in Hrun as (oldKeys & w1 & Hkeys & Hrun).
  unfold getKeys in Hkeys. simpl in Hkeys.
  rewrite !lookup_insert_ne in Hkeys by path_neq.
  destruct (config_fs C w !! filepath_Join cp "id_rsa") as [[| pw oldk | |] |] eqn:Hpriv;
    try done.
  destruct (config_fs C w !! filepath_Join cp "id_rsa.pub") as [[| | blk |] |] eqn:Hpub;
    try done.
  case_decide as Hpw; [| done]. subst pw. injection Hkeys as <- <-.
  apply bind_Ret in Hrun as (s0 & w1 & Hload & Hrun).
  apply shhFromPath_Ret in Hload as [Hload ->]. simpl in Hload.
  rewrite Hfile in Hload. injection Hload as <-.
  apply bind_Ret in Hrun as (s1 & wc & Hman & Hrun).
  apply bind_Ret in Hrun as ([] & w1 & Hc1 & Hrun).
  apply bind_Ret in Hrun as ([] & w2 & Hc2 & Hrun).
  apply bind_Ret in Hrun as ([] & w3 & Henc & Hrun).
  apply wrap_Ret, EncodeToFile_Ret in Henc.
  exists oldPass, oldk, blk, k, r, s1. do 2 eexists.
  split; [done |]. split; [done |]. split; [exact Hman |].
  unfold os_RemoveAll. simpl.
  assert (Htail : shh_file C wz = shh_file C w3).
  { eapply (steady_file (fun _ => True)); [| exact Hrun].
    runs_auto. }
  by rewrite Htail, Henc.
Qed.

(** *** The statements *)

(** C9: after [rotate] has returned without error, the manifest written
    differs from the one read in two places only: the acting user's public
    key in [Keys] is the block of the new key, and each record of the acting
    user has its AES key unwrapped with the old private key and wrapped
    again for the new public key.  The ciphertext field of every record is
    the same text, the acting user holds the same names, and the maps of the
    other users are as before. *)
Theorem rotate_changes_wrapped_keys_only (w w' : world C) (s : shh) (u : user) :
  acting_user C w u ->
  shh_file C w = Manifest s ->
  rotate C [] w = (Ret tt, w') ->
  exists s' oldk newk r,
    shh_file C w' = Manifest s' /\
    rsa_GenerateKey C (rand_Reader C w) = Some (newk, r) /\
    Keys s' = <[Username u :=
                  MkBlock (x509_MarshalPKCS1PublicKey C (public_of C newk))]> (Keys s) /\
    (forall v, v <> Username u -> Secrets s' !! v = Secrets s !! v) /\
    (forall name, Encrypted <$> entry s' (Username u) name
                  = Encrypted <$> entry s (Username u) name) /\
    (forall name sec, entry s (Username u) name = Some sec ->
       exists sec', entry s' (Username u) name = Some sec' /\
                    rewrapped C oldk (public_of C newk) sec sec').
Proof.
  intros (cp & Hcp & Hcfg) Hfile Hrun.
  destruct (rotate_Ret _ _ _ _ _ Hcp Hcfg Hfile Hrun)
    as (oldPass & oldk & blk & k & r & s1 & wb & wc & Hpriv & Hgen & Hman & Hfile').
  apply rotate_manifest_Ret in Hman as (HK & HO & HE). simpl in *.
  exists s1, oldk, k, r. split; [done |]. split; [done |]. split; [done |].
  split; [done |]. split.
  - intros name. specialize (HE name).
    destruct (entry s (Username u) name) as [sec |].
    + destruct HE as (sec' & -> & Henc & _). simpl. by rewrite Henc.
    + by rewrite HE.
  - intros name sec Hsec. specialize (HE name). by rewrite Hsec in HE.
Qed.

(** The body of the loop of [get] prints what [open_envelope] yields, or
    returns its error. *)
Lemma get_body_open (k : keys C) (sec : secret) (w : world C) :
  match open_envelope C (PrivateKey C k) sec with
  | Ret p => (get_body C k sec w).1 = Ret tt /\
             stdout C (get_body C k sec w).2 = stdout C w ++ p
  | Err e => (get_body C k sec w).1 = Err e
  | Panic _ => False
  end.
Proof.
  unfold open_envelope, get_body, bind, wrap, DecryptOAEP, aes_NewCipher.
  destruct (rsa_DecryptOAEP C (PrivateKey C k) (bytes_of (AESKey sec))) as [aesKey |];
    simpl; [| done].
  case_decide; simpl; [| done].
  case_decide as Hlen; simpl; [done |].
  unfold lift, slice_to, slice_from. rewrite !decide_True by lia. done.
Qed.

(** A rewrapped record reads under the new key as it read under the old. *)
Lemma rewrapped_opens oldk newk sec sec' :
  oaep_sound C -> base64_sound C ->
  rewrapped C oldk (public_of C newk) sec sec' ->
  open_stored C newk sec' = open_stored C oldk sec.
Proof.
  intros Hoaep Hb64 (Henc & byt & aesKey & r & c & r' & Hdec & Hun & Hwrap & Hkey).
  unfold open_stored, decode_secret, DecodeString.
  rewrite Hkey, Hb64, Henc, Hdec. simpl.
  destruct (base64_DecodeString C (Encrypted sec)) as [e |]; simpl; [| done].
  unfold open_envelope. simpl. rewrite !bytes_of_string_of.
  by rewrite (Hoaep _ _ _ _ _ Hwrap), Hun.
Qed.

(** C1: after [rotate] has returned without error, every secret the acting
    user held is still held, and the holder of the new private key reads
    from the new record exactly what the holder of the old private key read
    from the old one (the plaintext, or the same error).  The bytes [rotate]
    unwraps, the base64 decoding of the stored AES key field (line 746), are
    the bytes [get] unwraps, the AES key field of the record the resolver
    returns (line 204). *)
Theorem rotate_preserves_plaintext (w w' : world C) (s : shh) (u : user)
    (cp : string) (pw : list byte) (oldk : rsa_PrivateKey C) :
  oaep_sound C -> base64_sound C ->
  env_configPath (env C w) = Ret cp ->
  config_fs C w !! filepath_Join cp "config" = Some (CConfig C u) ->
  config_fs C w !! filepath_Join cp "id_rsa" = Some (CPrivateKey C pw oldk) ->
  shh_file C w = Manifest s ->
  rotate C [] w = (Ret tt, w') ->
  exists s' newk r,
    shh_file C w' = Manifest s' /\
    rsa_GenerateKey C (rand_Reader C w) = Some (newk, r) /\
    forall name sec,
      entry s (Username u) name = Some sec ->
      (exists sec', entry s' (Username u) name = Some sec' /\
                    open_stored C newk sec' = open_stored C oldk sec) /\
      (forall secrets dec,
          GetSecretsForUser C s name (Username u) = Ret secrets ->
          secrets !! name = Some dec ->
          DecodeString C (AESKey sec) = Ret (bytes_of (AESKey dec))).
Proof.
  intros Hoaep Hb64 Hcp Hcfg Hold Hfile Hrun.
  destruct (rotate_Ret _ _ _ _ _ Hcp Hcfg Hfile Hrun)
    as (oldPass & oldk' & blk & k & r & s1 & wb & wc & Hpriv & Hgen & Hman & Hfile').
  rewrite Hold in Hpriv. injection Hpriv as -> <-.
  apply rotate_manifest_Ret in Hman as (_ & _ & HE). simpl in HE.
  exists s1, k, r. split; [done |]. split; [done |].
  intros name sec Hsec. split.
  - specialize (HE name). rewrite Hsec in HE. destruct HE as (sec' & Hsec' & Hrw).
    exists sec'. split; [done |]. by apply rewrapped_opens.
  - intros secrets dec Hres Hdec.
    pose proof (resolver_lookup C _ _ _ _ name Hres) as Hl.
    assert (Hm : matching s name (Username u) !! name = Some sec).
    { unfold matching. unfold entry in Hsec.
      destruct (Secrets s !! Username u) as [m |]; [simpl | done].
      case_decide; [done |]. rewrite Hsec. apply lookup_singleton_eq. }
    rewrite Hm in Hl. destruct Hl as (dec' & Hdecode & Hdec').
    rewrite Hdec in Hdec'. injection Hdec' as <-.
    unfold decode_secret in Hdecode.
    destruct (DecodeString C (AESKey sec)) as [kb | |]; simpl in Hdecode; try done.
    destruct (DecodeString C (Encrypted sec)) as [eb | |]; simpl in Hdecode; try done.
    injection Hdecode as <-. simpl. by rewrite bytes_of_string_of.
Qed.

End Rotation.

(** ** The sample library keeps the contracts *)

Module SampleFacts.
Import Sample.

Lemma byte_xor_involutive (a b : byte) : byte_xor a (byte_xor a b) = b.
Proof.
  unfold byte_xor. rewrite Byte.to_bits_of_bits.
  rewrite <- (Byte.of_bits_to_bits b) at 2. f_equal.
  destruct (Byte.to_bits a) as (a0 & a1 & a2 & a3 & a4 & a5 & a6 & a7).
  destruct (Byte.to_bits b) as (b0 & b1 & b2 & b3 & b4 & b5 & b6 & b7).
  simpl. by rewrite <- !xorb_assoc, !xorb_nilpotent, !xorb_false_l.
Qed.

Lemma lib_oaep_sound : oaep_sound lib.
Proof.
  intros k r m c r' Henc. simpl in *. destruct r as [| seed r0]; [discriminate |].
  case_decide; [| discriminate]. injection Henc as <- <-.
  by rewrite decide_True.
Qed.

Lemma lib_cfb_sound : cfb_sound lib.
Proof.
  intros key iv p. simpl. rewrite <- list_fmap_compose.
  induction p as [| b p IH]; [done |]. simpl. f_equal; [| exact IH].
  apply byte_xor_involutive.
Qed.

Lemma lib_base64_sound : base64_sound lib.
Proof. intros b. simpl. f_equal. apply bytes_of_string_of. Qed.

Lemma alice_acts (s : shh) (e : environ) :
  env_configPath e = Ret "/home/alice/.config/shh" ->
  acting_user lib (start s e) alice.
Proof.
  intros He. exists "/home/alice/.config/shh". split; [exact He |].
  vm_compute. reflexivity.
Qed.

(** Runs of the commands on the sample worlds, and what the sample
    manifest holds. *)

Lemma deny_run :
  deny lib ["bob"; "db"] (start shared_manifest quiet)
  = (Ret tt, (deny lib ["bob"; "db"] (start shared_manifest quiet)).2).
Proof. vm_compute. reflexivity. Qed.

Lemma del_run :
  del lib ["db"] (start shared_manifest quiet)
  = (Ret tt, (del lib ["db"] (start shared_manifest quiet)).2).
Proof. vm_compute. reflexivity. Qed.

Lemma set_run :
  set lib ["db"; "n3w"] (start shared_manifest quiet)
  = (Ret tt, (set lib ["db"; "n3w"] (start shared_manifest quiet)).2).
Proof. vm_compute. reflexivity. Qed.

Lemma rotate_run :
  rotate lib [] (start shared_manifest quiet)
  = (Ret tt, (rotate lib [] (start shared_manifest quiet)).2).
Proof. vm_compute. reflexivity. Qed.

Lemma edit_run :
  (edit lib false ["db"] (start shared_manifest quiet)).1 = Ret tt /\
  stdout lib (edit lib false ["db"] (start shared_manifest quiet)).2 = [] /\
  temp_fs lib (edit lib false ["db"] (start shared_manifest quiet)).2 !! "/tmp/shh123"
  = Some (bytes_of "s3cret").
Proof. repeat split; vm_compute; reflexivity. Qed.

Lemma quiet_editor_keeps_hash (p p' : list byte) :
  env_editor_wait (env lib (start shared_manifest quiet)) p = Ret p' ->
  sha1_Sum lib p' = sha1_Sum lib p.
Proof. simpl. intros Hp. by injection Hp as ->. Qed.

Lemma keygen_sample (k : byte) (r : list byte) :
  rsa_GenerateKey lib (rand_Reader lib (start shared_manifest quiet)) = Some (k, r) ->
  k = x2a.
Proof. vm_compute. intros Hk. by injection Hk as <- _. Qed.

Lemma alice_id_rsa :
  config_fs lib (start shared_manifest quiet)
    !! filepath_Join "/home/alice/.config/shh" "id_rsa"
  = Some (CPrivateKey lib (bytes_of "hunter2") "a"%byte).
Proof. vm_compute. reflexivity. Qed.

Lemma alice_config_file :
  config_fs lib (start shared_manifest quiet)
    !! filepath_Join "/home/alice/.config/shh" "config"
  = Some (CConfig lib alice).
Proof. vm_compute. reflexivity. Qed.

Lemma alice_key : key_of lib (Keys shared_manifest) "alice" "a"%byte.
Proof. exists (MkBlock ["a"%byte]). split; vm_compute; reflexivity. Qed.

Lemma bob_key : key_of lib (Keys shared_manifest) "bob" "b"%byte.
Proof. exists (MkBlock ["b"%byte]). split; vm_compute; reflexivity. Qed.

Lemma bob_block : Keys shared_manifest !! "bob" = Some (MkBlock ["b"%byte]).
Proof. vm_compute. reflexivity. Qed.

Lemma alice_db :
  entry shared_manifest (Username alice) "db"
  = Some (Secret (wrapped_for "a") (sealed "s3cret")).
Proof. vm_compute. reflexivity. Qed.

Lemma alice_reads_db :
  open_stored lib "a"%byte (Secret (wrapped_for "a") (sealed "s3cret"))
  = Ret (bytes_of "s3cret").
Proof. vm_compute. reflexivity. Qed.

Lemma bob_holds_db : is_Some (entry shared_manifest "bob" "db").
Proof.
  apply (mk_is_Some _ (Secret (wrapped_for "b") (sealed "s3cret"))).
  vm_compute. reflexivity.
Qed.

Lemma bob_reads_api :
  open_stored lib "b"%byte <$> entry shared_manifest "bob" "api"
  = Some (Ret (bytes_of "token")).
Proof. vm_compute. reflexivity. Qed.

Lemma bob_db_matched : is_Some (matching shared_manifest "db" "bob" !! "db").
Proof.
  apply (mk_is_Some _ (Secret (wrapped_for "b") (sealed "s3cret"))).
  vm_compute. reflexivity.
Qed.

Lemma bob_api_unmatched : matching shared_manifest "db" "bob" !! "api" = None.
Proof. vm_compute. reflexivity. Qed.

Lemma alice_pruned :
  pruned shared_manifest (Username alice)
    (matching shared_manifest "db" (Username alice)) = None.
Proof. vm_compute. reflexivity. Qed.

End SampleFacts.

(** ** The statements at the sample worlds *)

Import Sample SampleFacts.

Lemma deny_removes_only_the_capability_witness :
  deny lib ["bob"; "db"] (start shared_manifest quiet)
  = (Ret tt, (deny lib ["bob"; "db"] (start shared_manifest quiet)).2) /\
  exists s',
    stored lib (deny lib ["bob"; "db"] (start shared_manifest quiet)).2 = Some s' /\
    entry s' "bob" "db" = None /\
    entry s' "bob" "api" = entry shared_manifest "bob" "api" /\
    entry s' "alice" "db" = entry shared_manifest "alice" "db".
Proof.
  split; [exact deny_run |].
  destruct (deny_removes_only_the_capability lib "bob" "db" ["bob"; "db"]
              (start shared_manifest quiet) _ shared_manifest
              (or_introl eq_refl) eq_refl deny_run)
    as (s' & Hfile & Hgone & Hrest & Hothers & _).
  exists s'. unfold stored. rewrite Hfile. split; [reflexivity |]. split; [| split].
  - apply Hgone. exact bob_db_matched.
  - apply Hrest. exact bob_api_unmatched.
  - unfold entry. rewrite Hothers; [reflexivity | discriminate].
Defined.

Lemma removal_prunes_empty_map_and_keeps_keys_witness :
  acting_user lib (start shared_manifest quiet) alice /\
  exists s',
    stored lib (del lib ["db"] (start shared_manifest quiet)).2 = Some s' /\
    Secrets s' !! "alice" = None /\
    Keys s' = Keys shared_manifest.
Proof.
  split; [exact (alice_acts shared_manifest quiet eq_refl) |].
  destruct (removal_prunes_empty_map_and_keeps_keys lib) as (_ & _ & Hdel & _).
  destruct (Hdel "db" (start shared_manifest quiet) _ shared_manifest alice
              eq_refl (alice_acts shared_manifest quiet eq_refl) del_run)
    as (s' & Hfile & Hkeys & Hpr & _).
  exists s'. unfold stored. rewrite Hfile. split; [reflexivity |].
  split; [| exact Hkeys]. etrans; [exact Hpr | exact alice_pruned].
Defined.

Lemma set_fans_out_witness :
  set lib ["db"; "n3w"] (start shared_manifest quiet)
  = (Ret tt, (set lib ["db"; "n3w"] (start shared_manifest quiet)).2) /\
  reads (set lib ["db"; "n3w"] (start shared_manifest quiet)).2 "a" "alice" "db"
  = Some (Ret (bytes_of "n3w")) /\
  reads (set lib ["db"; "n3w"] (start shared_manifest quiet)).2 "b" "bob" "db"
  = Some (Ret (bytes_of "n3w")) /\
  reads (set lib ["db"; "n3w"] (start shared_manifest quiet)).2 "b" "bob" "api"
  = Some (Ret (bytes_of "token")).
Proof.
  split; [exact set_run |].
  destruct (set_fans_out lib "db" "n3w" (start shared_manifest quiet) _
              shared_manifest alice lib_oaep_sound lib_cfb_sound lib_base64_sound
              eq_refl (alice_acts shared_manifest quiet eq_refl) set_run)
    as (s' & Hfile & _ & Hfan & _ & Hrest & _).
  unfold reads, stored. rewrite Hfile. split; [| split].
  - destruct (Hfan "alice" (or_introl eq_refl)) as (sec & -> & _ & Hopen).
    simpl. f_equal. apply Hopen. exact alice_key.
  - destruct (Hfan "bob" (or_intror bob_holds_db)) as (sec & -> & _ & Hopen).
    simpl. f_equal. apply Hopen. exact bob_key.
  - rewrite Hrest by discriminate. exact bob_reads_api.
Defined.

Lemma edit_without_change_keeps_manifest_witness :
  (edit lib false ["db"] (start shared_manifest quiet)).1 = Ret tt /\
  stdout lib (edit lib false ["db"] (start shared_manifest quiet)).2 = [] /\
  temp_fs lib (edit lib false ["db"] (start shared_manifest quiet)).2 !! "/tmp/shh123"
    = Some (bytes_of "s3cret") /\
  shh_file lib (edit lib false ["db"] (start shared_manifest quiet)).2
    = Manifest shared_manifest.
Proof.
  destruct edit_run as (Hret & Hout & Htmp).
  split; [exact Hret |]. split; [exact Hout |]. split; [exact Htmp |].
  exact (proj1 (edit_without_change_keeps_manifest lib false ["db"]
                  (start shared_manifest quiet) quiet_editor_keeps_hash)).
Defined.

Lemma rotate_changes_wrapped_keys_only_witness :
  rotate lib [] (start shared_manifest quiet)
  = (Ret tt, (rotate lib [] (start shared_manifest quiet)).2) /\
  exists s',
    stored lib (rotate lib [] (start shared_manifest quiet)).2 = Some s' /\
    Keys s' !! "alice" = Some (MkBlock [x2a]) /\
    Keys s' !! "bob" = Some (MkBlock ["b"%byte]) /\
    Secrets s' !! "bob" = Secrets shared_manifest !! "bob" /\
    Encrypted <$> entry s' "alice" "db" = Some (sealed "s3cret").
Proof.
  split; [exact rotate_run |].
  destruct (rotate_changes_wrapped_keys_only lib (start shared_manifest quiet) _
              shared_manifest alice (alice_acts shared_manifest quiet eq_refl)
              eq_refl rotate_run)
    as (s' & oldk & newk & r & Hfile & Hgen & Hkeys & Hothers & Henc & _).
  apply keygen_sample in Hgen. subst newk.
  exists s'. unfold stored. rewrite Hfile. split; [reflexivity |].
  split; [| split; [| split]].
  - rewrite Hkeys. exact (lookup_insert_eq (Keys shared_manifest) "alice" _).
  - rewrite Hkeys. rewrite lookup_insert_ne by discriminate. exact bob_block.
  - apply Hothers. discriminate.
  - etrans; [apply Henc |]. by rewrite alice_db.
Defined.

Lemma rotate_preserves_plaintext_witness :
  rotate lib [] (start shared_manifest quiet)
  = (Ret tt, (rotate lib [] (start shared_manifest quiet)).2) /\
  reads (rotate lib [] (start shared_manifest quiet)).2 x2a "alice" "db"
  = Some (Ret (bytes_of "s3cret")).
Proof.
  split; [exact rotate_run |].
  destruct (rotate_preserves_plaintext lib (start shared_manifest quiet) _
              shared_manifest alice "/home/alice/.config/shh" (bytes_of "hunter2")
              "a"%byte lib_oaep_sound lib_base64_sound eq_refl
              alice_config_file alice_id_rsa eq_refl rotate_run)
    as (s' & newk & r & Hfile & Hgen & Hsame).
  apply keygen_sample in Hgen. subst newk.
  destruct (Hsame "db" _ alice_db) as [(sec' & Hsec' & Hopen) _].
  unfold reads, stored. rewrite Hfile.
  change (entry s' "alice" "db") with (entry s' (Username alice) "db").
  rewrite Hsec'. simpl. f_equal. etrans; [exact Hopen | exact alice_reads_db].
Defined.

(** * Further properties of main.go *)

(** ** Argument counts *)

Section ArgumentCounts.

Variable C : crypto.
Variable pem_Decode : list byte -> option Block.

(** Every command that checks the number of its arguments first returns its
    usage error on any other number and leaves the world as it was: no file
    is read, no password asked. *)
Theorem bad_argument_count_is_reported (ni : bool) (args : list string) (w : world C) :
  (length args <> 1 ->
   get C ni args w = (Err "bad args: expected `get $name`", w)) /\
  (length args <> 2 ->
   set C args w = (Err "bad args: expected `set $name $val`", w)) /\
  (length args <> 1 ->
   del C args w = (Err "bad args: expected `del $secret`", w)) /\
  (length args <> 2 ->
   allow C ni args w = (Err "bad args: expected `allow $user $secret`", w)) /\
  (length args <> 1 ->
   edit C ni args w = (Err "bad args: expected `edit $secret`", w)) /\
  (length args <> 0 ->
   rotate C args w = (Err "bad args: expected none", w)) /\
  (length args <> 0 -> length args <> 2 ->
   addUser C pem_Decode args w
   = (Err "bad args: expected `add-user [$user $pubkey]`", w)) /\
  (length args <> 1 ->
   rmUser C args w = (Err "bad args: expected `rm-user $user`", w)) /\
  (1 < length args ->
   show C args w = (Err "bad args: expected `show [$user]`", w)).
Proof.
  unfold get, set, del, allow, edit, rotate, addUser, rmUser, show.
  repeat split; intros; by rewrite decide_True.
Qed.

End ArgumentCounts.

Lemma bad_argument_count_is_reported_witness :
  get lib false [] (start shared_manifest quiet)
  = (Err "bad args: expected `get $name`", start shared_manifest quiet) /\
  rotate lib ["now"] (start shared_manifest quiet)
  = (Err "bad args: expected none", start shared_manifest quiet).
Proof.
  pose proof (bad_argument_count_is_reported lib (fun _ => None) false []
                (start shared_manifest quiet)) as (Hget & _).
  pose proof (bad_argument_count_is_reported lib (fun _ => None) false ["now"]
                (start shared_manifest quiet)) as (_ & _ & _ & _ & _ & Hrot & _).
  split; [apply Hget | apply Hrot]; discriminate.
Defined.

(** ** What the commands leave alone *)

Section Frames.

Variable C : crypto.
Variable pem_Decode : list byte -> option Block.

Global Instance reading_preorder P : PreOrder (reading C P).
Proof.
  split.
  - intros w. split; [reflexivity | done].
  - intros w1 w2 w3 (Hs1 & Hc1 & Ht1 & Hr1) (Hs2 & Hc2 & Ht2 & Hr2).
    split; [by etrans |]. repeat split; congruence.
Qed.

Local Ltac reading_call :=
  intros w Hw; cbv beta zeta delta [aes_NewCipher ParsePKCS1PublicKey fmt_Print
    getConfigPath getUser getKeys requestPassword requestPasswordFromServer
    obtain_password shhFromPath ret fail lift DecryptOAEP CFBDecrypt];
  repeat case_match; simpl; unfold reading, steady; simpl;
  (split; [| assumption]);
  first [ by (split; [split; [reflexivity | exists []; by rewrite app_nil_r] | done])
        | split; [split; [reflexivity | eexists [_]; split; [reflexivity | by apply Forall_singleton]] | done] ].

Lemma reading_getConfigPath e P : runs C e (reading C P) (getConfigPath C).
Proof. reading_call. Qed.
Lemma reading_getUser e P p : runs C e (reading C P) (getUser C p).
Proof. reading_call. Qed.
Lemma reading_getKeys e P p pw : runs C e (reading C P) (getKeys C p pw).
Proof. reading_call. Qed.
Lemma reading_shhFromPath e P p : runs C e (reading C P) (shhFromPath C p).
Proof. reading_call. Qed.
Lemma reading_obtain_password e P ni u : runs C e (reading C P) (obtain_password C ni u).
Proof. reading_call. Qed.
Lemma reading_aes_NewCipher e P k : runs C e (reading C P) (aes_NewCipher C k).
Proof. reading_call. Qed.
Lemma reading_fmt_Print e P b : runs C e (reading C P) (fmt_Print C b).
Proof. reading_call. Qed.
Lemma reading_DecryptOAEP e P k c :
  P EvDecryptOAEP -> runs C e (reading C P) (DecryptOAEP C k c).
Proof. intros HP. reading_call. Qed.
Lemma reading_CFBDecrypt e P k iv c :
  P EvCFBDecrypt -> runs C e (reading C P) (CFBDecrypt C k iv c).
Proof. intros HP. reading_call. Qed.

Local Hint Resolve reading_getConfigPath reading_getUser reading_getKeys
  reading_shhFromPath reading_obtain_password reading_aes_NewCipher
  reading_fmt_Print reading_DecryptOAEP reading_CFBDecrypt : runs.

(** [get] never persists: whatever its arguments and its outcome, the
    project file, the configuration directory and the temporary files are as
    they were, the random source is not read, and the only calls of the
    cryptographic library unwrap a key or decrypt a payload. *)
Theorem get_reads_only (nonInteractive : bool) (args : list string) (w : world C) :
  shh_file C (get C nonInteractive args w).2 = shh_file C w /\
  config_fs C (get C nonInteractive args w).2 = config_fs C w /\
  temp_fs C (get C nonInteractive args w).2 = temp_fs C w /\
  rand_Reader C (get C nonInteractive args w).2 = rand_Reader C w /\
  logs C decrypting w (get C nonInteractive args w).2.
Proof.
  assert (Hruns : runs C (env C w) (reading C decrypting) (get C nonInteractive args)).
  { unfold get, get_body, decrypting. runs_auto. }
  destruct (Hruns w eq_refl) as [([Hf Hl] & Hc & Ht & Hr) _]. done.
Qed.


(** *** The project file is written last *)

Lemma runs_user_PublicKeyBlock e P cp :
  runs C e (steady C P) (user_PublicKeyBlock C cp).
Proof.
  intros w Hw. unfold user_PublicKeyBlock. repeat case_match; simpl;
    (split; [reflexivity | assumption]).
Qed.

Local Hint Resolve runs_user_PublicKeyBlock : runs.

Lemma writes_last_EncodeToFile s : writes_last C (EncodeToFile C s).
Proof. intros w. unfold EncodeToFile. case_match; simpl; auto. Qed.

Lemma writes_last_ret : writes_last C (ret C tt).
Proof. intros w. by left. Qed.

Lemma writes_last_fail msg : writes_last C (fail C msg).
Proof. intros w. by right. Qed.

Lemma writes_last_wrap msg c : writes_last C c -> writes_last C (wrap C msg c).
Proof.
  intros Hc w. unfold wrap. destruct (Hc w) as [Hr | Hf];
    destruct (c w) as [o w1]; simpl in *; [left; by subst | by right].
Qed.

Lemma writes_last_bind {A} (c : M C A) (k : A -> M C unit) :
  (forall e, runs C e (steady C (fun _ => True)) c) ->
  (forall a, writes_last C (k a)) -> writes_last C (bind C c k).
Proof.
  intros Hc Hk w. unfold bind. destruct (Hc (env C w) w eq_refl) as [[Hf _] _].
  destruct (c w) as [[a | err | p] w1]; simpl in *; [| by right | by right].
  destruct (Hk a w1) as [Hr | Hf']; [by left | right; congruence].
Qed.

Local Ltac writes_last_step :=
  first
    [ apply writes_last_EncodeToFile
    | apply writes_last_ret
    | apply writes_last_fail
    | apply writes_last_wrap
    | apply writes_last_bind; [intros ?; solve [runs_auto] | intros ?]
    | match goal with
      | |- writes_last _ (if ?b then _ else _) => destruct b
      | |- writes_last _ (match ?x with _ => _ end) => destruct x
      end ].

(** No partial write: [set], [del], [allow], [deny], [edit], [addUser] and
    [rmUser] write the project file as their last step, so a run that does
    not return nil (an error at any step, or a panic) leaves the file as it
    was. *)
Theorem project_file_written_last (ni : bool) (args : list string) :
  writes_last C (set C args) /\
  writes_last C (del C args) /\
  writes_last C (allow C ni args) /\
  writes_last C (deny C args) /\
  writes_last C (edit C ni args) /\
  writes_last C (addUser C pem_Decode args) /\
  writes_last C (rmUser C args).
Proof.
  split; [| split; [| split; [| split; [| split; [| split]]]]].
  - unfold set, set_body, encrypt_for. repeat writes_last_step.
  - unfold del. repeat writes_last_step.
  - unfold allow, allow_body. repeat writes_last_step.
  - unfold deny. repeat writes_last_step.
  - unfold edit. case_decide; [apply writes_last_fail |].
    intros w. case_decide; [by right |].
    match goal with |- (?c w).1 = _ \/ _ => enough (Hc : writes_last C c) by apply Hc end.
    unfold edit_open, edit_body, encrypt_for. repeat writes_last_step.
  - unfold addUser. repeat writes_last_step.
  - unfold rmUser. repeat writes_last_step.
Qed.

End Frames.

(** ** Removing entries and users *)

Section Membership.

Variable C : crypto.
Variable pem_Decode : list byte -> option Block.

(** [del name] removes entries of the acting user only (the comment above
    [del] speaks of all users; the code deletes from the map of the acting
    user): after it has returned without error the acting user has no entry
    under a matched name, the other entries of the acting user and the maps
    of all other users are as before, the keys mapping too, and no call of
    the cryptographic library was made. *)
Theorem del_removes_own_entries_only (name : string) (w w' : world C)
    (s : shh) (u : user) :
  shh_file C w = Manifest s ->
  acting_user C w u ->
  del C [name] w = (Ret tt, w') ->
  exists s',
    shh_file C w' = Manifest s' /\
    (forall n, is_Some (matching s name (Username u) !! n) ->
               entry s' (Username u) n = None) /\
    (forall n, matching s name (Username u) !! n = None ->
               entry s' (Username u) n = entry s (Username u) n) /\
    (forall v, v <> Username u -> Secrets s' !! v = Secrets s !! v) /\
    Keys s' = Keys s /\
    trace C w' = trace C w.
Proof.
  intros Hfile Hu Hrun.
  pose proof (del_logs C (env C w) [name] w eq_refl) as [Hlogs _].
  rewrite Hrun in Hlogs. apply logs_nothing in Hlogs.
  destruct (del_Ret _ _ _ _ _ _ Hfile Hu Hrun) as (secrets & Hres & ->).
  pose proof (drop_secrets_spec s (Username u) secrets (matching s name (Username u))
                (fun n => resolver_matches C _ _ _ _ n Hres))
    as (Hkeys & _ & Hothers & Hentry).
  exists (drop_secrets s (Username u) secrets). split; [done |].
  split; [| split; [| split; [| split]]].
  - intros n [sec Hm]. by rewrite Hentry, Hm.
  - intros n Hm. by rewrite Hentry, Hm.
  - exact Hothers.
  - exact Hkeys.
  - exact Hlogs.
Qed.

(** [deny user] with no secret name stands for the wildcard: after it has
    returned without error the user has no map at all in [Secrets], while
    the user's key and everything of the other users stay. *)
Theorem deny_without_name_revokes_all (user : string) (w w' : world C) (s : shh) :
  shh_file C w = Manifest s ->
  deny C [user] w = (Ret tt, w') ->
  exists s',
    shh_file C w' = Manifest s' /\
    Secrets s' !! user = None /\
    Keys s' = Keys s /\
    (forall v, v <> user -> Secrets s' !! v = Secrets s !! v).
Proof.
  intros Hfile Hrun.
  destruct (deny_Ret C user "*" [user] w w' s (or_intror (conj eq_refl eq_refl))
              Hfile Hrun) as (secrets & Hres & ->).
  pose proof (drop_secrets_spec s user secrets (matching s "*" user)
                (fun n => resolver_matches C _ _ _ _ n Hres))
    as (Hkeys & Hpr & Hothers & _).
  exists (drop_secrets s user secrets). split; [done |].
  split; [| split; [exact Hkeys | exact Hothers]]. rewrite Hpr. unfold pruned, matching.
  destruct (Secrets s !! user) as [m |]; [simpl | done].
  rewrite decide_True; [done |].
  apply map_eq. intros n. rewrite lookup_difference, lookup_empty.
  by destruct (m !! n).
Qed.


(** [rmUser] takes a user out of both mappings: when it returns without
    error the user has neither a key nor secrets, the keys and secrets of
    every other user are as before, and a manifest in which only users with
    a key hold secrets stays so; for a name that is not in [Keys] it returns
    "user not found" and the world is as it was. *)
Theorem rmUser_removes_user_everywhere (user : string) (w : world C) (s : shh) :
  shh_file C w = Manifest s ->
  (Keys s !! user = None -> rmUser C [user] w = (Err "user not found", w)) /\
  (forall w', rmUser C [user] w = (Ret tt, w') ->
     exists s',
       shh_file C w' = Manifest s' /\
       Keys s' !! user = None /\ Secrets s' !! user = None /\
       (forall v, v <> user ->
          Keys s' !! v = Keys s !! v /\ Secrets s' !! v = Secrets s !! v) /\
       (keys_cover s -> keys_cover s')).
Proof.
  intros Hfile. unfold rmUser. rewrite decide_False by (simpl; lia).
  unfold bind, lift, shhFromPath, fail, EncodeToFile. rewrite Hfile. simpl.
  split.
  - by intros ->.
  - intros w'. destruct (Keys s !! user) as [b |]; [| done].
    case_match; [done |]. intros [= <-]. eexists. split; [done |]. simpl.
    rewrite !lookup_delete_eq. split; [done |]. split; [done |]. split.
    + intros v Hv. by rewrite !lookup_delete_ne.
    + intros Hcover v. unfold keys_cover in *. simpl.
      destruct (decide (v = user)) as [-> | Hv].
      * rewrite lookup_delete_eq. by intros [? ?].
      * rewrite !lookup_delete_ne by done. apply Hcover.
Qed.

(** [addUser user pubkey] adds a key once: for a user already in [Keys] it
    returns nil without writing anything and without looking at the key it
    was given; for a new user it stores the decoded block under the name and
    touches neither the other keys nor any secret; and when the key does not
    decode it returns "bad public key" and the world is as it was. *)
Theorem addUser_adds_a_key_once (user pubkey : string) (w : world C) (s : shh) :
  shh_file C w = Manifest s ->
  (is_Some (Keys s !! user) ->
   addUser C pem_Decode [user; pubkey] w = (Ret tt, w)) /\
  (Keys s !! user = None -> pem_Decode (bytes_of pubkey) = None ->
   addUser C pem_Decode [user; pubkey] w = (Err "bad public key", w)) /\
  (forall b w', Keys s !! user = None -> pem_Decode (bytes_of pubkey) = Some b ->
     addUser C pem_Decode [user; pubkey] w = (Ret tt, w') ->
     shh_file C w' = Manifest (Shh (<[user := b]> (Keys s)) (Secrets s))).
Proof.
  intros Hfile. unfold addUser. rewrite decide_False by (simpl; lia).
  rewrite !decide_False by (simpl; lia).
  unfold bind, lift, ret, shhFromPath, fail, EncodeToFile. rewrite Hfile. simpl.
  split; [| split].
  - by intros [b ->].
  - by intros -> ->.
  - intros b w' -> ->. case_match; [done |]. by intros [= <-].
Qed.

(** Adding a user and removing the user again gives back the manifest: for
    a user who is not in it, [addUser] followed by [rmUser] leaves the
    project file holding what it held. *)
Theorem add_then_remove_user_restores (user pubkey : string) (b : Block)
    (w w1 w2 : world C) (s : shh) :
  shh_file C w = Manifest s ->
  keys_cover s ->
  Keys s !! user = None ->
  pem_Decode (bytes_of pubkey) = Some b ->
  addUser C pem_Decode [user; pubkey] w = (Ret tt, w1) ->
  rmUser C [user] w1 = (Ret tt, w2) ->
  shh_file C w2 = Manifest s.
Proof.
  intros Hfile Hcover Hkey Hpem Hadd Hrm.
  assert (Hsec : Secrets s !! user = None).
  { destruct (Secrets s !! user) eqn:Hs; [| done].
    destruct (Hcover user ltac:(by eexists)) as [? ?]. congruence. }
  unfold addUser in Hadd. rewrite decide_False in Hadd by (simpl; lia).
  rewrite !decide_False in Hadd by (simpl; lia).
  unfold bind, lift, ret, shhFromPath, fail, EncodeToFile in Hadd.
  rewrite Hfile in Hadd. simpl in Hadd. rewrite Hkey, Hpem in Hadd.
  destruct (env_persist_fails (env C w)); [done |]. injection Hadd as <-.
  unfold rmUser in Hrm. rewrite decide_False in Hrm by (simpl; lia).
  unfold bind, lift, shhFromPath, fail, EncodeToFile in Hrm. simpl in Hrm.
  rewrite lookup_insert_eq in Hrm. simpl in Hrm.
  destruct (env_persist_fails (env C w)); [done |]. injection Hrm as <-. simpl.
  rewrite delete_insert_eq, delete_id by done. rewrite (delete_id (Secrets s)) by done.
  by destruct s.
Qed.

End Membership.

(** *** At the sample worlds *)

Module MoreSampleFacts.
Import MoreSamples.

Lemma deny_all_run :
  deny lib ["bob"] (start shared_manifest quiet)
  = (Ret tt, (deny lib ["bob"] (start shared_manifest quiet)).2).
Proof. vm_compute. reflexivity. Qed.

Lemma rmUser_run :
  rmUser lib ["bob"] (start shared_manifest quiet)
  = (Ret tt, (rmUser lib ["bob"] (start shared_manifest quiet)).2).
Proof. vm_compute. reflexivity. Qed.

Lemma addUser_run :
  addUser lib sample_pem ["carol"; "PEMc"] (start shared_manifest quiet)
  = (Ret tt, (addUser lib sample_pem ["carol"; "PEMc"] (start shared_manifest quiet)).2).
Proof. vm_compute. reflexivity. Qed.

Lemma rmUser_after_addUser_run :
  rmUser lib ["carol"]
    (addUser lib sample_pem ["carol"; "PEMc"] (start shared_manifest quiet)).2
  = (Ret tt,
     (rmUser lib ["carol"]
        (addUser lib sample_pem ["carol"; "PEMc"] (start shared_manifest quiet)).2).2).
Proof. vm_compute. reflexivity. Qed.

Lemma carol_is_new : Keys shared_manifest !! "carol" = None.
Proof. vm_compute. reflexivity. Qed.

Lemma carol_pem : sample_pem (bytes_of "PEMc") = Some (MkBlock ["c"%byte]).
Proof. vm_compute. reflexivity. Qed.

Lemma bob_is_known : is_Some (Keys shared_manifest !! "bob").
Proof. apply (mk_is_Some _ (MkBlock ["b"%byte])). vm_compute. reflexivity. Qed.

Lemma alice_db_matched :
  is_Some (matching shared_manifest "db" (Username alice) !! "db").
Proof.
  apply (mk_is_Some _ (Secret (wrapped_for "a") (sealed "s3cret"))).
  vm_compute. reflexivity.
Qed.

Lemma shared_manifest_covered : keys_cover shared_manifest.
Proof.
  intros u [m Hm]. unfold shared_manifest in Hm. cbn [Secrets] in Hm.
  apply lookup_insert_Some in Hm as [[<- _] | [_ Hm]].
  - apply (mk_is_Some _ (MkBlock ["a"%byte])). vm_compute. reflexivity.
  - apply lookup_singleton_Some in Hm as [<- _].
    apply (mk_is_Some _ (MkBlock ["b"%byte])). vm_compute. reflexivity.
Qed.

End MoreSampleFacts.

Import MoreSamples MoreSampleFacts.

Lemma del_removes_own_entries_only_witness :
  exists s',
    stored lib (del lib ["db"] (start shared_manifest quiet)).2 = Some s' /\
    entry s' "alice" "db" = None /\
    Secrets s' !! "bob" = Secrets shared_manifest !! "bob".
Proof.
  destruct (del_removes_own_entries_only lib "db" (start shared_manifest quiet) _
              shared_manifest alice eq_refl
              (alice_acts shared_manifest quiet eq_refl) del_run)
    as (s' & Hfile & Hgone & _ & Hothers & _).
  exists s'. unfold stored. rewrite Hfile. split; [reflexivity |]. split.
  - exact (Hgone "db" alice_db_matched).
  - apply Hothers. discriminate.
Defined.

Lemma deny_without_name_revokes_all_witness :
  exists s',
    stored lib (deny lib ["bob"] (start shared_manifest quiet)).2 = Some s' /\
    Secrets s' !! "bob" = None /\
    Secrets s' !! "alice" = Secrets shared_manifest !! "alice".
Proof.
  destruct (deny_without_name_revokes_all lib "bob" (start shared_manifest quiet) _
              shared_manifest eq_refl deny_all_run)
    as (s' & Hfile & Hnone & _ & Hothers).
  exists s'. unfold stored. rewrite Hfile. split; [reflexivity |]. split.
  - exact Hnone.
  - apply Hothers. discriminate.
Defined.


Lemma rmUser_removes_user_everywhere_witness :
  exists s',
    stored lib (rmUser lib ["bob"] (start shared_manifest quiet)).2 = Some s' /\
    Keys s' !! "bob" = None /\ Secrets s' !! "bob" = None /\
    Keys s' !! "alice" = Keys shared_manifest !! "alice" /\
    keys_cover s'.
Proof.
  destruct (rmUser_removes_user_everywhere lib "bob" (start shared_manifest quiet)
              shared_manifest eq_refl) as [_ Hrm].
  destruct (Hrm _ rmUser_run) as (s' & Hfile & Hk & Hs & Hothers & Hcover).
  exists s'. unfold stored. rewrite Hfile. split; [reflexivity |].
  split; [exact Hk |]. split; [exact Hs |]. split.
  - apply Hothers. discriminate.
  - exact (Hcover shared_manifest_covered).
Defined.

Lemma addUser_adds_a_key_once_witness :
  addUser lib sample_pem ["bob"; "junk"] (start shared_manifest quiet)
  = (Ret tt, start shared_manifest quiet) /\
  addUser lib sample_pem ["carol"; "junk"] (start shared_manifest quiet)
  = (Err "bad public key", start shared_manifest quiet) /\
  stored lib (addUser lib sample_pem ["carol"; "PEMc"] (start shared_manifest quiet)).2
  = Some (Shh (<["carol" := MkBlock ["c"%byte]]> (Keys shared_manifest))
              (Secrets shared_manifest)).
Proof.
  split; [| split].
  - exact (proj1 (addUser_adds_a_key_once lib sample_pem "bob" "junk"
                    (start shared_manifest quiet) shared_manifest eq_refl)
             bob_is_known).
  - exact (proj1 (proj2 (addUser_adds_a_key_once lib sample_pem "carol" "junk"
                           (start shared_manifest quiet) shared_manifest eq_refl))
             carol_is_new eq_refl).
  - unfold stored.
    by rewrite (proj2 (proj2 (addUser_adds_a_key_once lib sample_pem "carol" "PEMc"
                                (start shared_manifest quiet) shared_manifest eq_refl))
                  _ _ carol_is_new carol_pem addUser_run).
Defined.

Lemma add_then_remove_user_restores_witness :
  shh_file lib
    (rmUser lib ["carol"]
       (addUser lib sample_pem ["carol"; "PEMc"] (start shared_manifest quiet)).2).2
  = Manifest shared_manifest.
Proof.
  exact (add_then_remove_user_restores lib sample_pem "carol" "PEMc" _
           (start shared_manifest quiet) _ _ shared_manifest eq_refl
           shared_manifest_covered carol_is_new carol_pem addUser_run
           rmUser_after_addUser_run).
Defined.

(** ** The daemon: reading, writing and losing the password *)

Module DaemonMore.
Import Daemon.

(** What each kind of request does: /ping answers 200 and changes nothing,
    whatever the method and body; elsewhere a GET answers the cached
    password and leaves it, a request that is not a GET with an empty body is
    answered 400 "empty body" and leaves it, one with a body makes the body
    the password; and the ticker is restarted by /reset-timer only. *)
Theorem handler_reads_and_writes_password (now : nat) (r : request) (d : state) :
  (Path r = "/ping" -> handler now r d = (d, Response 200 [])) /\
  (Path r <> "/ping" -> Method r = "GET" ->
     password (handler now r d).1 = password d /\
     (handler now r d).2 = Response 200 (bytes_of (password d))) /\
  (Path r <> "/ping" -> Method r <> "GET" -> Body r = [] -> BodyErr r = None ->
     password (handler now r d).1 = password d /\
     (handler now r d).2 = Response 400 (bytes_of "empty body")) /\
  (Path r <> "/ping" -> Method r <> "GET" -> Body r <> [] -> BodyErr r = None ->
     password (handler now r d).1 = string_of (Body r) /\
     (handler now r d).2 = Response 200 []) /\
  (Path r <> "/reset-timer" -> ticker_since (handler now r d).1 = ticker_since d).
Proof.
  unfold handler. split; [| split; [| split; [| split]]].
  - intros ->. by rewrite decide_True.
  - intros Hp Hm. rewrite decide_False by done. rewrite (decide_True (P := Method r = "GET")) by done.
    by destruct (decide (Path r = "/reset-timer")).
  - intros Hp Hm Hb He. rewrite decide_False by done.
    rewrite (decide_False (P := Method r = "GET")) by done.
    rewrite Hb, He. simpl. by destruct (decide (Path r = "/reset-timer")).
  - intros Hp Hm Hb He. rewrite decide_False by done.
    rewrite (decide_False (P := Method r = "GET")) by done.
    rewrite He. rewrite decide_False by (intros [Hl _]; by destruct (Body r)).
    by destruct (decide (Path r = "/reset-timer")).
  - intros Hp. destruct (decide (Path r = "/ping")); [done |].
    rewrite (decide_False (P := Path r = "/reset-timer")) by done.
    destruct (decide (Method r = "GET")); [done |].
    destruct (decide (length (Body r) = 0 ∧ BodyErr r = None)%nat); [done |].
    by destruct (BodyErr r).
Qed.

Lemma handler_reads_and_writes_password_witness :
  handler 7 (Request "/ping" "POST" (bytes_of "x") None) (State "hunter2" 0)
  = (State "hunter2" 0, Response 200 []) /\
  password (handler 7 (Request "/" "POST" (bytes_of "new") None) (State "hunter2" 0)).1
  = "new".
Proof.
  pose proof (handler_reads_and_writes_password 7
                (Request "/ping" "POST" (bytes_of "x") None) (State "hunter2" 0))
    as (Hping & _).
  pose proof (handler_reads_and_writes_password 7
                (Request "/" "POST" (bytes_of "new") None) (State "hunter2" 0))
    as (_ & _ & _ & Hpost & _).
  split; [exact (Hping eq_refl) |].
  destruct (Hpost ltac:(discriminate) ltac:(discriminate) ltac:(discriminate) eq_refl)
    as [Hpw _].
  exact Hpw.
Defined.

(** The life of a cached password: once a POST to / has stored a password
    that is not empty, a GET answers it, also through /reset-timer, which
    moves the expiry one [tickTime] past the time of the request; after the
    ticker has fired, a GET answers the empty password. *)
Theorem cached_password_expires (t1 t2 : nat) (pw : list byte) (d : state) :
  pw <> [] ->
  (handler t2 (Request "/" "GET" [] None)
     (handler t1 (Request "/" "POST" pw None) d).1).2 = Response 200 pw /\
  (handler t2 (Request "/reset-timer" "GET" [] None)
     (handler t1 (Request "/" "POST" pw None) d).1).2 = Response 200 pw /\
  expiry (handler t2 (Request "/reset-timer" "GET" [] None)
            (handler t1 (Request "/" "POST" pw None) d).1).1 = t2 + tickTime /\
  (handler t2 (Request "/" "GET" [] None)
     (on_tick (handler t1 (Request "/" "POST" pw None) d).1)).2 = Response 200 [].
Proof.
  intros Hpw.
  assert (Hpost : (handler t1 (Request "/" "POST" pw None) d).1
                  = State (string_of pw) (ticker_since d)).
  { unfold handler. simpl.
    rewrite decide_False by (intros [Hl _]; by destruct pw). done. }
  rewrite Hpost. unfold handler, on_tick, on_reset, expiry. simpl.
  by rewrite bytes_of_string_of.
Qed.

Lemma cached_password_expires_witness :
  (handler 9 (Request "/" "GET" [] None)
     (on_tick (handler 5 (Request "/" "POST" (bytes_of "hunter2") None)
                 (State EmptyString 0)).1)).2 = Response 200 [].
Proof.
  exact (proj2 (proj2 (proj2 (cached_password_expires 5 9 (bytes_of "hunter2")
                                (State EmptyString 0) ltac:(discriminate))))).
Defined.

End DaemonMore.

(** ** show *)

Section Show.

Variable C : crypto.



End Show.



